(** * AI image detector: the heuristic scoring pipeline of script.js

    The heuristic ("B1") detector of script.js draws the uploaded bitmap on a
    canvas of at most 512 pixels a side, computes three pixel statistics
    (Laplacian energy, per-channel standard deviation, saturation) and a
    file-size term, and combines them into a score between 0 and 100;
    scores of 90 and above are flagged as AI-generated.  The other detector
    of script.js hands the bitmap to a TensorFlow.js model; its handlers
    are embedded in the module [Tfjs], the model itself being a function
    the script knows nothing about.

    Around the score both versions have the same page: a file input, a
    preview, two buttons, a loader and a box for the result.  The page is
    embedded as a record of the properties the script writes, and each
    handler as a function on it; what the browser does in between (reading
    the file, decoding the image) is an event of its own, so that the
    handlers can be followed through any order of events.

    JavaScript numbers are IEEE 754 binary64 values.  The functions of the
    script are embedded once, over an interface [Number] of the operations
    the script uses, and the interface has two instances:

    - [Binary64.number]: Rocq's primitive binary64 floats, with [Math.max],
      [Math.min], [Math.round], [===] and the [Float32Array] store written
      out as ECMAScript defines them.  It runs, bit for bit: the scores of
      the reference images and every counterexample are evaluated here.
    - [Exact.number]: the real numbers, that is the same program without
      rounding error, overflow or NaN.  The statements that quantify over
      all numbers (bounds, monotonicity, the size of the canvas) are proved
      here.

    Statements that do not depend on the arithmetic are proved for every
    instance. *)

From Stdlib Require Import PrimFloat.
From Stdlib Require FloatOps FloatAxioms.
From Stdlib Require Import ZArith List Bool Lia.
From Stdlib Require String DecimalString.
Import String.StringSyntax.
From Stdlib Require Import Reals Lra Zfloor.
Import ListNotations.

Set Implicit Arguments.
Set Warnings "-inexact-float".

(** ** Numbers *)

Declare Scope js_scope.
Delimit Scope js_scope with js.

Class Number (num : Type) : Type := {
  of_Z : Z -> num;                 (* an integer-valued number *)
  nadd : num -> num -> num;        (* x + y *)
  nsub : num -> num -> num;        (* x - y *)
  nmul : num -> num -> num;        (* x * y *)
  ndiv : num -> num -> num;        (* x / y *)
  Math_sqrt : num -> num;
  Math_abs : num -> num;
  Math_max : num -> num -> num;
  Math_min : num -> num -> num;
  Math_round : num -> Z;           (* nearest integer, a tie goes up *)
  to_float32 : num -> num;         (* the value a Float32Array element keeps *)
  is_zero : num -> bool;           (* x === 0 *)
  geq : num -> num -> bool         (* x >= y *)
}.

Notation "x + y" := (nadd x y) : js_scope.
Notation "x - y" := (nsub x y) : js_scope.
Notation "x * y" := (nmul x y) : js_scope.
Notation "x / y" := (ndiv x y) : js_scope.
Notation "x >= y" := (geq x y) : js_scope.

(** A decimal literal [n/d]: in binary64 the correctly rounded quotient of
    two exactly representable integers is the double nearest to the decimal,
    which is what the literal denotes. *)
Definition lit {num} `{Number num} (n d : Z) : num := (of_Z n / of_Z d)%js.

(** *** Binary64: the numbers of the JavaScript engine *)

Module Binary64.

(** An integer as a number.  The integers of the script (sizes of bitmaps,
    bytes, numbers of pixels, the size of a file, literals) are below 2^53,
    where the conversion is exact. *)
Definition int (z : Z) : PrimFloat.float :=
  match z with
  | Z0 => PrimFloat.zero
  | Zpos _ => PrimFloat.of_uint63 (Uint63Axioms.of_Z z)
  | Zneg p => PrimFloat.opp (PrimFloat.of_uint63 (Uint63Axioms.of_Z (Zpos p)))
  end.

(** [Math.max]: NaN when an argument is NaN, and +0 is larger than -0. *)
Definition max (x y : PrimFloat.float) : PrimFloat.float :=
  if PrimFloat.is_nan x || PrimFloat.is_nan y then PrimFloat.nan
  else if PrimFloat.ltb x y then y
  else if PrimFloat.ltb y x then x
  else if PrimFloat.get_sign x then y else x.

(** [Math.min]: NaN when an argument is NaN, and -0 is smaller than +0. *)
Definition min (x y : PrimFloat.float) : PrimFloat.float :=
  if PrimFloat.is_nan x || PrimFloat.is_nan y then PrimFloat.nan
  else if PrimFloat.ltb x y then x
  else if PrimFloat.ltb y x then y
  else if PrimFloat.get_sign x then x else y.

(** [Math.round] of a finite number [(-1)^s * m * 2^e]: the integer
    [floor (x + 1/2)], computed exactly.  The script rounds a bitmap
    dimension times a scale of at most 1, which is finite; NaN and the
    infinities, that [Math.round] would return unchanged, are given 0. *)
Definition round (x : PrimFloat.float) : Z :=
  match FloatOps.Prim2SF x with
  | SpecFloat.S754_finite s m e =>
      let n := SpecFloat.cond_Zopp s (Zpos m) in
      if (0 <=? e)%Z then (n * 2 ^ e)%Z
      else ((2 * n + 2 ^ (- e)) / 2 ^ (1 - e))%Z
  | _ => 0%Z
  end.


(** Storing into a [Float32Array]: round to the nearest binary32 value,
    ties to even (precision 24, emax 128). *)
Definition float32 (x : PrimFloat.float) : PrimFloat.float :=
  match FloatOps.Prim2SF x with
  | SpecFloat.S754_finite s m e => FloatOps.SF2Prim (SpecFloat.binary_round 24 128 s m e)
  | _ => x
  end.

#[global] Instance number : Number PrimFloat.float := {|
  of_Z := int;
  nadd := PrimFloat.add;
  nsub := PrimFloat.sub;
  nmul := PrimFloat.mul;
  ndiv := PrimFloat.div;
  Math_sqrt := PrimFloat.sqrt;
  Math_abs := PrimFloat.abs;
  Math_max := max;
  Math_min := min;
  Math_round := round;
  to_float32 := float32;
  is_zero := fun x => PrimFloat.eqb x PrimFloat.zero;
  geq := fun x y => PrimFloat.leb y x
|}.

End Binary64.

(** *** Exact: the same operations on real numbers *)

Module Exact.

Definition eq0 (x : R) : bool := if Req_dec_T x 0 then true else false.
Definition ge (x y : R) : bool := if Rle_dec y x then true else false.

(** [Math.round x] is [floor (x + 1/2)]; a [Float32Array] element keeps the
    number it is given. *)
#[global] Instance number : Number R := {|
  of_Z := IZR;
  nadd := Rplus;
  nsub := Rminus;
  nmul := Rmult;
  ndiv := Rdiv;
  Math_sqrt := sqrt;
  Math_abs := Rabs;
  Math_max := Rmax;
  Math_min := Rmin;
  Math_round := fun x => Zfloor (x + / 2);
  to_float32 := fun x => x;
  is_zero := eq0;
  geq := ge
|}.

End Exact.

(** ** The browser objects the script reads *)

(** An [ImageBitmap] has a [width] and a [height] (unsigned long in WebIDL).
    The script reads its pixels through a canvas only: [drawn b w h] is the
    array [ctx.getImageData(0,0,w,h).data] holds after
    [ctx.drawImage(b,0,0,w,h)] on a new [w] by [h] canvas, that is [4*w*h]
    bytes, R, G, B, A for each pixel, row by row.  How the browser resamples
    is not the script's business. *)
Record ImageBitmap : Type := {
  width : Z;
  height : Z;
  drawn : Z -> Z -> list Z
}.

Record File : Type := { size : Z }.

(** The realm's random number generator, which [Math.random()] reads and
    advances: the draws it is going to return, and how many were taken. *)
Record Realm (num : Type) : Type := {
  draws : nat -> num;
  taken : nat
}.

(** How the promise of an [async] function settles. *)
Inductive Settled (A : Type) : Type :=
| Fulfilled (value : A)
| Rejected (reason : String.string).

Arguments Fulfilled {A} value.
Arguments Rejected {A} reason.

(** ** script.js *)

Section Script.

Context {num : Type} `{Number num}.
Local Open Scope string_scope.
Local Open Scope js_scope.

(** [Math.random()]. *)
Definition Math_random (realm : Realm num) : num * Realm num :=
  (draws realm (taken realm),
   {| draws := draws realm; taken := S (taken realm) |}).

(** [a[k]], with [d] where JavaScript has [undefined].  The script reads
    within its arrays only: [data] has [4*w*h] elements, [gray] has [w*h],
    and the Laplacian is taken at interior pixels. *)
Definition get {A : Type} (a : list A) (k : Z) (d : A) : A :=
  nth (Z.to_nat k) a d.

(** The values of [k] in [for (let k = lo; k < hi; k++)]. *)
Definition range (lo hi : Z) : list Z :=
  map (fun k => (lo + Z.of_nat k)%Z) (seq 0 (Z.to_nat (hi - lo))).

(** [function clamp(v,a,b){ return Math.max(a, Math.min(b, v)); }] *)
Definition clamp (v a b : num) : num := Math_max a (Math_min b v).

(** *** computeScoreFromBitmap: the canvas size *)

Definition maxDim : Z := 512.

(** [const scale = Math.min(1, maxDim / Math.max(imgBitmap.width, imgBitmap.height));] *)
Definition scale (imgBitmap : ImageBitmap) : num :=
  Math_min (of_Z 1)
    (of_Z maxDim / Math_max (of_Z (width imgBitmap)) (of_Z (height imgBitmap))).

(** [const w = Math.max(64, Math.round(imgBitmap.width * scale));] *)
Definition canvas_w (imgBitmap : ImageBitmap) : Z :=
  Z.max 64 (Math_round (of_Z (width imgBitmap) * scale imgBitmap)).

(** [const h = Math.max(64, Math.round(imgBitmap.height * scale));] *)
Definition canvas_h (imgBitmap : ImageBitmap) : Z :=
  Z.max 64 (Math_round (of_Z (height imgBitmap) * scale imgBitmap)).

(** *** computeScoreFromBitmap: the features *)

Section Features.

Variable data : list Z.
Variables w h : Z.

(** [data[k]] as a number. *)
Definition sample (k : Z) : num := of_Z (get data k 0%Z).

(** [gray[i] = 0.299*r + 0.587*g + 0.114*b;] for [i < w*h], in a
    [Float32Array]. *)
Definition gray : list num :=
  map (fun i =>
         let r := sample (i * 4) in
         let g := sample (i * 4 + 1) in
         let b := sample (i * 4 + 2) in
         to_float32 (lit 299 1000 * r + lit 587 1000 * g + lit 114 1000 * b))
      (range 0 (w * h)).

(** [-4*gray[i] + gray[i-1] + gray[i+1] + gray[i-w] + gray[i+w]] *)
Definition laplacian (g : list num) (i : Z) : num :=
  of_Z (-4) * get g i (of_Z 0) + get g (i - 1) (of_Z 0)
  + get g (i + 1) (of_Z 0) + get g (i - w) (of_Z 0)
  + get g (i + w) (of_Z 0).

(** The two loops over the interior pixels, adding [Math.abs(v)]. *)
Definition lapSum (g : list num) : num :=
  fold_left
    (fun acc y =>
       fold_left
         (fun acc x =>
            let i := (y * w + x)%Z in
            acc + Math_abs (laplacian g i))
         (range 1 (w - 1)) acc)
    (range 1 (h - 1)) (of_Z 0).

(** [const lapAvg = lapSum / ((w-2)*(h-2));] *)
Definition lapAvg : num := lapSum gray / of_Z ((w - 2) * (h - 2)).

(** [const N = w*h;] *)
Definition N : Z := (w * h)%Z.

(** [mean[cidx] += val;] over all pixels, then [mean[cidx] /= N]. *)
Definition mean (cidx : Z) : num :=
  fold_left (fun acc i => acc + sample (i * 4 + cidx)) (range 0 N) (of_Z 0)
  / of_Z N.

(** [sq[cidx] += val*val;] over all pixels. *)
Definition sq (cidx : Z) : num :=
  fold_left
    (fun acc i => let val := sample (i * 4 + cidx) in acc + val * val)
    (range 0 N) (of_Z 0).

(** The argument of the square root:
    [Math.max(0, sq[cidx]/N - mean[cidx]*mean[cidx])]. *)
Definition variance (cidx : Z) : num :=
  Math_max (of_Z 0) (sq cidx / of_Z N - mean cidx * mean cidx).

Definition std (cidx : Z) : num := Math_sqrt (variance cidx).

(** [const avgStd = (std[0]+std[1]+std[2]) / 3;] *)
Definition avgStd : num := (std 0 + std 1 + std 2) / of_Z 3.

(** The saturation of pixel [i]:
    [const sat = maxv===0?0:(maxv - minv)/maxv;] *)
Definition sat (i : Z) : num :=
  let r := sample (i * 4) / of_Z 255 in
  let g := sample (i * 4 + 1) / of_Z 255 in
  let b := sample (i * 4 + 2) / of_Z 255 in
  let maxv := Math_max (Math_max r g) b in
  let minv := Math_min (Math_min r g) b in
  if is_zero maxv then of_Z 0 else (maxv - minv) / maxv.

Definition satSum : num :=
  fold_left (fun acc i => acc + sat i) (range 0 N) (of_Z 0).

(** [const avgSat = satSum / N;] *)
Definition avgSat : num := satSum / of_Z N.

End Features.

(** [const sizeKB = file.size / 1024;] *)
Definition sizeKB (file : File) : num := of_Z (size file) / of_Z 1024.

(** *** computeScoreFromBitmap: the score *)

Definition lapNorm (lapAvg : num) : num :=
  clamp ((of_Z 150 - lapAvg) / of_Z 150) (of_Z 0) (of_Z 1).

Definition stdNorm (avgStd : num) : num :=
  clamp ((of_Z 60 - avgStd) / of_Z 60) (of_Z 0) (of_Z 1).

Definition satNorm (avgSat : num) : num :=
  clamp ((avgSat - lit 25 100) / lit 5 10) (of_Z 0) (of_Z 1).

Definition sizeNorm (sizeKB : num) : num :=
  clamp ((of_Z 100 - Math_min sizeKB (of_Z 100)) / of_Z 100) (of_Z 0) (of_Z 1).

(** [const score = (lapNorm*0.45 + stdNorm*0.30 + satNorm*0.10 + sizeNorm*0.15) * 100;] *)
Definition score (lapAvg avgStd avgSat sizeKB : num) : num :=
  (lapNorm lapAvg * lit 45 100 + stdNorm avgStd * lit 30 100
   + satNorm avgSat * lit 10 100 + sizeNorm sizeKB * lit 15 100) * of_Z 100.

(** [(Math.random()-0.5)*6], for the draw [u]. *)
Definition jitter (u : num) : num := (u - lit 5 10) * of_Z 6.

(** [const finalScore = clamp(score + (Math.random()-0.5)*6, 0, 100);] *)
Definition finalScore (lapAvg avgStd avgSat sizeKB u : num) : num :=
  clamp (score lapAvg avgStd avgSat sizeKB + jitter u) (of_Z 0) (of_Z 100).

(** The score of the canvas [data], [w] by [h], for the file [file]
    and the draw [u]. *)
Definition scoreOf (data : list Z) (w h : Z) (file : File) (u : num) : num :=
  finalScore (lapAvg data w h) (avgStd data w h) (avgSat data w h)
             (sizeKB file) u.

(** [async function computeScoreFromBitmap(imgBitmap, file)]: no statement
    of the function throws, so its promise is fulfilled; the one effect is
    the draw taken from the generator. *)
Definition computeScoreFromBitmap (imgBitmap : ImageBitmap) (file : File)
    (realm : Realm num) : Settled num * Realm num :=
  let w := canvas_w imgBitmap in
  let h := canvas_h imgBitmap in
  let data := drawn imgBitmap w h in
  let (u, realm') := Math_random realm in
  (Fulfilled (scoreOf data w h file u), realm').

(** [showResult]: [const verdict = score>=90 ? 'AI-generated' : 'Likely real';] *)
Definition verdict (score : num) : String.string :=
  if score >= of_Z 90 then "AI-generated" else "Likely real".

End Script.

(** ** Inputs *)

(** The canvas data of a [w] by [h] image whose pixels all are
    [(r, g, b, a)]. *)
Definition uniform (r g b a : Z) (w h : Z) : list Z :=
  List.concat (repeat [r; g; b; a] (Z.to_nat (w * h))).

(** A bitmap of one colour: however it is scaled, every pixel drawn has
    that colour. *)
Definition plain (width height : Z) (r g b a : Z) : ImageBitmap :=
  {| width := width; height := height; drawn := uniform r g b a |}.

(** The elements of a [Uint8ClampedArray]. *)
Definition bytes (data : list Z) : Prop :=
  Forall (fun v => (0 <= v <= 255)%Z) data.

(** [ImageData.data] of a [w] by [h] canvas: four bytes a pixel. *)
Definition valid_data (data : list Z) (w h : Z) : Prop :=
  length data = Z.to_nat (4 * (w * h)) /\ bytes data.

(** A generator that returns [u] first and [u'] from then on. *)
Definition realm_of {num : Type} (u u' : num) : Realm num :=
  {| draws := fun n => match n with O => u | S _ => u' end; taken := 0 |}.

(** ** Checks by computation

    A fact about binary64 arithmetic that holds for every canvas size is
    checked by running through the sizes: a canvas has at most
    512 * 512 = 262144 pixels. *)

Definition canvas_sizes : nat := Z.to_nat 262144.

(** [sums_ok P v n k s]: [P (k+j) (s + v + ... + v)] ([j] times [v]) for
    every [j] from 1 to [n], with the sums computed as the loops of the
    script compute them. *)
Fixpoint sums_ok (P : Z -> float -> bool) (v : float) (n : nat) (k : Z)
    (s : float) : bool :=
  match n with
  | O => true
  | S n' =>
      if P (k + 1)%Z (s + v)%float
      then sums_ok P v n' (k + 1)%Z (s + v)%float
      else false
  end.

Definition quotient_is (q : float) (k : Z) (s : float) : bool :=
  Leibniz.eqb (s / Binary64.int k)%float q.

(** [P v] for every [v] from 0 to [n]: a fact about a byte, or about a
    side of at most 512 pixels, is checked on every value. *)
Definition all_upto (n : Z) (P : Z -> bool) : bool :=
  forallb P (range 0 (n + 1)).

(** ** Number.prototype.toFixed *)

Section Fixed.

Local Open Scope string_scope.

(** The decimal digits of [n >= 0]. *)
Definition digits (n : Z) : String.string :=
  DecimalString.NilZero.string_of_uint (N.to_uint (Z.to_N n)).

Fixpoint zeros (k : nat) : String.string :=
  match k with
  | O => String.EmptyString
  | S k' => String.append "0" (zeros k')
  end.

(** ECMAScript, Number.prototype.toFixed, the steps that write the integer
    [n] with [f] digits after the point: the digits of [n], padded with
    zeros on the left to [f + 1] digits, and a point before the last [f]. *)
Definition fixed_point (n : Z) (f : nat) : String.string :=
  let m := digits n in
  match f with
  | O => m
  | S _ =>
      let k := String.length m in
      let m := if (k <=? f)%nat then String.append (zeros (f + 1 - k)) m else m in
      let k := String.length m in
      String.append (String.substring 0 (k - f) m)
        (String.append "." (String.substring (k - f) f m))
  end.

(** [x.toFixed(f)] where it is a fixed-point numeral.  [None] stands for the
    two cases that are not: [f > 100], a RangeError, and [|x| >= 10^21],
    where the result is that of [Number::toString]. *)
Class Format (num : Type) : Type := {
  toFixed : num -> nat -> option String.string
}.

(** In binary64 the number is [(-1)^s * m * 2^e]; the integer nearest to
    [m * 2^e * 10^f], the larger one at a tie, is computed exactly. *)
Definition toFixed_binary64 (x : float) (f : nat) : option String.string :=
  if (100 <? f)%nat then None
  else
    match FloatOps.Prim2SF x with
    | SpecFloat.S754_nan => Some "NaN"
    | SpecFloat.S754_infinity s => Some (if s then "-Infinity" else "Infinity")
    | SpecFloat.S754_zero _ => Some (fixed_point 0 f)
    | SpecFloat.S754_finite s m e =>
        let large :=
          if (0 <=? e)%Z then (10 ^ 21 <=? Zpos m * 2 ^ e)%Z
          else (10 ^ 21 * 2 ^ (- e) <=? Zpos m)%Z in
        if large then None
        else
          let p := (Zpos m * 10 ^ Z.of_nat f)%Z in
          let n :=
            if (0 <=? e)%Z then (p * 2 ^ e)%Z
            else ((2 * p + 2 ^ (- e)) / 2 ^ (1 - e))%Z in
          Some (String.append (if s then "-" else String.EmptyString) (fixed_point n f))
    end.

#[global] Instance format_binary64 : Format float :=
  {| toFixed := toFixed_binary64 |}.

End Fixed.

(** ** The page *)

(** The file that [a.click()] saves: the [download] attribute of the
    link, and the type and the text of the [Blob] behind its URL. *)
Record Download : Type := {
  a_download : String.string;
  blob_type : String.string;
  blob_text : String.string
}.

Definition quot : String.string :=
  String.String (Ascii.ascii_of_nat 34) String.EmptyString.

Definition newline : String.string :=
  String.String (Ascii.ascii_of_nat 10) String.EmptyString.

Section Page.

Context {num : Type} `{Number num} `{Format num}.
Local Open Scope string_scope.
Local Open Scope js_scope.

(** What the script asks of the browser.  The script cannot tell two files
    of the same size apart otherwise than through these. *)
Record Browser : Type := {
  (* [input.value] when the user has chosen the file *)
  input_path : File -> String.string;
  (* [reader.result] at the [load] event of [reader.readAsDataURL(f)] *)
  readAsDataURL : File -> String.string;
  (* how the promise of [createImageBitmap(f)] settles; the reason of a
     rejection is the [message] of the exception *)
  createImageBitmap : File -> Settled ImageBitmap;
  (* [Number::toString], which [toFixed] returns from 10^21 on *)
  Number_toString : num -> String.string;
  (* the [message] of the TypeError of reading [size] of [null] *)
  null_size : String.string
}.

(** The elements the script holds, with the properties it writes; an element
    is [hidden] when its class list has ['hidden'].  With them the variable
    [currentFile], what the script has shown by [alert] and saved by
    [a.click()] (the latest first), and the work the browser has in hand:
    the files being read, one for each [FileReader] whose [load] event is
    to come, and the files being decoded, one for each call of the
    [click] handler of [analyzeBtn] that waits for [createImageBitmap]. *)
Record Page : Type := {
  input_value : String.string;
  preview_src : String.string;
  previewWrap_hidden : bool;
  analyzeBtn_disabled : bool;
  resetBtn_disabled : bool;
  loader_hidden : bool;
  resultBox_hidden : bool;
  resultBox_background : String.string;
  resultBox_color : String.string;
  resultBox_innerHTML : String.string;
  (* the score the [click] listener of [#downloadReport] holds, when
     [resultBox] has that button *)
  downloadReport_score : option num;
  currentFile : option File;
  alerts : list String.string;
  downloads : list Download;
  reading : list File;
  decoding : list File
}.

Variable browser : Browser.

(** [function resetAll()] *)
Definition resetAll (p : Page) : Page :=
  {| input_value := String.EmptyString;
     preview_src := String.EmptyString;
     previewWrap_hidden := true;
     analyzeBtn_disabled := true;
     resetBtn_disabled := true;
     loader_hidden := loader_hidden p;
     resultBox_hidden := true;
     resultBox_background := resultBox_background p;
     resultBox_color := resultBox_color p;
     resultBox_innerHTML := resultBox_innerHTML p;
     downloadReport_score := downloadReport_score p;
     currentFile := None;
     alerts := alerts p;
     downloads := downloads p;
     reading := reading p;
     decoding := decoding p |}.

(** The user picks [f] in the file dialog, or leaves it with no file: the
    browser sets [input.value] and fires [change]. *)
Definition choose (f : option File) (p : Page) : Page :=
  {| input_value := match f with Some f => input_path browser f | None => String.EmptyString end;
     preview_src := preview_src p;
     previewWrap_hidden := previewWrap_hidden p;
     analyzeBtn_disabled := analyzeBtn_disabled p;
     resetBtn_disabled := resetBtn_disabled p;
     loader_hidden := loader_hidden p;
     resultBox_hidden := resultBox_hidden p;
     resultBox_background := resultBox_background p;
     resultBox_color := resultBox_color p;
     resultBox_innerHTML := resultBox_innerHTML p;
     downloadReport_score := downloadReport_score p;
     currentFile := currentFile p;
     alerts := alerts p;
     downloads := downloads p;
     reading := reading p;
     decoding := decoding p |}.

(** [input.addEventListener('change', ...)], up to [reader.readAsDataURL(f)]. *)
Definition on_change (f : option File) (p : Page) : Page :=
  match f with
  | None => resetAll p
  | Some f =>
      {| input_value := input_value p;
         preview_src := preview_src p;
         previewWrap_hidden := previewWrap_hidden p;
         analyzeBtn_disabled := analyzeBtn_disabled p;
         resetBtn_disabled := resetBtn_disabled p;
         loader_hidden := loader_hidden p;
         resultBox_hidden := resultBox_hidden p;
         resultBox_background := resultBox_background p;
         resultBox_color := resultBox_color p;
         resultBox_innerHTML := resultBox_innerHTML p;
         downloadReport_score := downloadReport_score p;
         currentFile := Some f;
         alerts := alerts p;
         downloads := downloads p;
         reading := (reading p ++ [f])%list;
         decoding := decoding p |}
  end.

(** [l] without its element [k]. *)
Definition without {A : Type} (k : nat) (l : list A) : list A :=
  (firstn k l ++ skipn (S k) l)%list.

(** [reader.onload], for the reader of the file [k] of those being read. *)
Definition on_load (k : nat) (p : Page) : Page :=
  match nth_error (reading p) k with
  | None => p
  | Some f =>
      {| input_value := input_value p;
         preview_src := readAsDataURL browser f;
         previewWrap_hidden := false;
         analyzeBtn_disabled := false;
         resetBtn_disabled := false;
         loader_hidden := loader_hidden p;
         resultBox_hidden := true;
         resultBox_background := resultBox_background p;
         resultBox_color := resultBox_color p;
         resultBox_innerHTML := resultBox_innerHTML p;
         downloadReport_score := downloadReport_score p;
         currentFile := currentFile p;
         alerts := alerts p;
         downloads := downloads p;
         reading := without k (reading p);
         decoding := decoding p |}
  end.

(** [alert(message)] *)
Definition alert (message : String.string) (p : Page) : Page :=
  {| input_value := input_value p;
     preview_src := preview_src p;
     previewWrap_hidden := previewWrap_hidden p;
     analyzeBtn_disabled := analyzeBtn_disabled p;
     resetBtn_disabled := resetBtn_disabled p;
     loader_hidden := loader_hidden p;
     resultBox_hidden := resultBox_hidden p;
     resultBox_background := resultBox_background p;
     resultBox_color := resultBox_color p;
     resultBox_innerHTML := resultBox_innerHTML p;
     downloadReport_score := downloadReport_score p;
     currentFile := currentFile p;
     alerts := message :: alerts p;
     downloads := downloads p;
     reading := reading p;
     decoding := decoding p |}.

(** [score.toFixed(f)], for [f] = 1 and 2. *)
Definition fixed (score : num) (f : nat) : String.string :=
  match toFixed score f with
  | Some s => s
  | None => Number_toString browser score
  end.

(** The template of [showResult]. *)
Definition result_html (score : num) : String.string :=
  String.concat String.EmptyString
    [ "<div>"; verdict score; " — <strong>"; fixed score 1;
      "%</strong></div>"; newline;
      "    <div style="; quot;
      "font-weight:500;font-size:13px;margin-top:8px;color:#475569"; quot;
      ">Scores ≥ 90% are flagged as AI-generated. This is a lightweight heuristic check.</div>";
      newline;
      "    <div style="; quot; "margin-top:10px"; quot; "><button id="; quot;
      "downloadReport"; quot; " class="; quot; "btn"; quot;
      ">Download report (TXT)</button></div>" ].

(** The statements of [showResult] that do not depend on the template:
    the box is shown, painted by [score>=90], filled with [html], and the
    new button [#downloadReport] gets a listener that holds [score]. *)
Definition show (html : String.string) (score : num) (p : Page) : Page :=
  {| input_value := input_value p;
     preview_src := preview_src p;
     previewWrap_hidden := previewWrap_hidden p;
     analyzeBtn_disabled := analyzeBtn_disabled p;
     resetBtn_disabled := resetBtn_disabled p;
     loader_hidden := loader_hidden p;
     resultBox_hidden := false;
     resultBox_background := if score >= of_Z 90 then "#fff1f0" else "#f0fff4";
     resultBox_color := if score >= of_Z 90 then "#7f1d1d" else "#064e3b";
     resultBox_innerHTML := html;
     downloadReport_score := Some score;
     currentFile := currentFile p;
     alerts := alerts p;
     downloads := downloads p;
     reading := reading p;
     decoding := decoding p |}.

(** [function showResult(score)] *)
Definition showResult (score : num) (p : Page) : Page :=
  show (result_html score) score p.

(** The text of the report, [[...].join('\n')]. *)
Definition report (score : num) : String.string :=
  String.concat newline
    [ "AI Fake Image Detector — Report";
      String.append "Score: " (String.append (fixed score 2) "%");
      String.append "Flag: " (if score >= of_Z 90 then "AI-generated" else "Likely real");
      "Note: This is a lightweight heuristic B1 detector intended for quick checks." ].

(** The end of [downloadReport]: a [Blob] of type text/plain with the
    text, and a click on a link to it that saves it as
    ai_detector_report.txt. *)
Definition save (txt : String.string) (p : Page) : Page :=
  {| input_value := input_value p;
     preview_src := preview_src p;
     previewWrap_hidden := previewWrap_hidden p;
     analyzeBtn_disabled := analyzeBtn_disabled p;
     resetBtn_disabled := resetBtn_disabled p;
     loader_hidden := loader_hidden p;
     resultBox_hidden := resultBox_hidden p;
     resultBox_background := resultBox_background p;
     resultBox_color := resultBox_color p;
     resultBox_innerHTML := resultBox_innerHTML p;
     downloadReport_score := downloadReport_score p;
     currentFile := currentFile p;
     alerts := alerts p;
     downloads :=
       {| a_download := "ai_detector_report.txt";
          blob_type := "text/plain";
          blob_text := txt |} :: downloads p;
     reading := reading p;
     decoding := decoding p |}.

(** [function downloadReport(score)] *)
Definition downloadReport (score : num) (p : Page) : Page :=
  save (report score) p.

(** The [click] handler of [analyzeBtn] past its guard, up to the first
    [await]: the loader is shown, the button disabled, and
    [createImageBitmap(currentFile)] called. *)
Definition analyze_begin (f : File) (p : Page) : Page :=
  {| input_value := input_value p;
     preview_src := preview_src p;
     previewWrap_hidden := previewWrap_hidden p;
     analyzeBtn_disabled := true;
     resetBtn_disabled := resetBtn_disabled p;
     loader_hidden := false;
     resultBox_hidden := resultBox_hidden p;
     resultBox_background := resultBox_background p;
     resultBox_color := resultBox_color p;
     resultBox_innerHTML := resultBox_innerHTML p;
     downloadReport_score := downloadReport_score p;
     currentFile := currentFile p;
     alerts := alerts p;
     downloads := downloads p;
     reading := reading p;
     decoding := (decoding p ++ [f])%list |}.

(** [if(!currentFile) return;] and the rest. *)
Definition on_analyze (p : Page) : Page :=
  match currentFile p with
  | None => p
  | Some f => analyze_begin f p
  end.

(** [computeScoreFromBitmap(imgBitmap, currentFile)], as the handler calls
    it: with [currentFile] null the function runs as far as [file.size],
    which throws a TypeError, before [Math.random()] is reached. *)
Definition computeScoreFromBitmap_of (imgBitmap : ImageBitmap)
    (file : option File) (realm : Realm num) : Settled num * Realm num :=
  match file with
  | Some file => computeScoreFromBitmap imgBitmap file realm
  | None => (Rejected (null_size browser), realm)
  end.

(** The [finally] block of the handler. *)
Definition analyze_finally (p : Page) : Page :=
  {| input_value := input_value p;
     preview_src := preview_src p;
     previewWrap_hidden := previewWrap_hidden p;
     analyzeBtn_disabled := false;
     resetBtn_disabled := resetBtn_disabled p;
     loader_hidden := true;
     resultBox_hidden := resultBox_hidden p;
     resultBox_background := resultBox_background p;
     resultBox_color := resultBox_color p;
     resultBox_innerHTML := resultBox_innerHTML p;
     downloadReport_score := downloadReport_score p;
     currentFile := currentFile p;
     alerts := alerts p;
     downloads := downloads p;
     reading := reading p;
     decoding := decoding p |}.

(** The call [k] of [createImageBitmap] is over. *)
Definition decoded (k : nat) (p : Page) : Page :=
  {| input_value := input_value p;
     preview_src := preview_src p;
     previewWrap_hidden := previewWrap_hidden p;
     analyzeBtn_disabled := analyzeBtn_disabled p;
     resetBtn_disabled := resetBtn_disabled p;
     loader_hidden := loader_hidden p;
     resultBox_hidden := resultBox_hidden p;
     resultBox_background := resultBox_background p;
     resultBox_color := resultBox_color p;
     resultBox_innerHTML := resultBox_innerHTML p;
     downloadReport_score := downloadReport_score p;
     currentFile := currentFile p;
     alerts := alerts p;
     downloads := downloads p;
     reading := reading p;
     decoding := without k (decoding p) |}.

(** The [catch] block of the handler. *)
Definition analyze_catch (message : String.string) (p : Page) : Page :=
  alert (String.append "Error analyzing image: " message) p.

(** The rest of the handler, from the moment the promise of
    [createImageBitmap] settles for the file [k] of those being decoded.
    [computeScoreFromBitmap] has no [await] of its own, and what follows
    its promise runs before any other event is handled. *)
Definition on_decoded (k : nat) (st : Page * Realm num) : Page * Realm num :=
  let (p, realm) := st in
  match nth_error (decoding p) k with
  | None => st
  | Some f =>
      let p := decoded k p in
      match createImageBitmap browser f with
      | Rejected message => (analyze_finally (analyze_catch message p), realm)
      | Fulfilled imgBitmap =>
          match computeScoreFromBitmap_of imgBitmap (currentFile p) realm with
          | (Fulfilled score, realm') =>
              (analyze_finally (showResult score p), realm')
          | (Rejected message, realm') =>
              (analyze_finally (analyze_catch message p), realm')
          end
      end
  end.

(** What happens on the page.  A button that is disabled gets no click. *)
Inductive Event : Type :=
| Change (f : option File)
| Load (k : nat)
| ClickReset
| ClickAnalyze
| Decoded (k : nat)
| ClickDownload.

Definition step (e : Event) (st : Page * Realm num) : Page * Realm num :=
  let (p, realm) := st in
  match e with
  | Change f => (on_change f (choose f p), realm)
  | Load k => (on_load k p, realm)
  | ClickReset => if resetBtn_disabled p then st else (resetAll p, realm)
  | ClickAnalyze => if analyzeBtn_disabled p then st else (on_analyze p, realm)
  | Decoded k => on_decoded k st
  | ClickDownload =>
      match downloadReport_score p with
      | Some score => (downloadReport score p, realm)
      | None => st
      end
  end.

(** The page after the events [es], the first of the list first. *)
Definition run (es : list Event) (st : Page * Realm num) : Page * Realm num :=
  fold_left (fun st e => step e st) es st.

End Page.

Arguments Browser : clear implicits.
Arguments Page : clear implicits.
(** ** script.js, the version with a TensorFlow.js model

    The handlers of [change] and of the reset button, and [resetAll], are
    those of the other version, and so are the statements of the [click]
    handler of [analyzeBtn] around its two calls.  The version has its own
    guard, its own score and its own texts. *)

Module Tfjs.

Section Tfjs.

Context {num : Type} `{Number num} `{Format num}.
Local Open Scope string_scope.
Local Open Scope js_scope.

Variable browser : Browser num.

(** The message of the TypeError of [model.predict] for a null [model]. *)
Variable null_predict : String.string.

(** All the script asks of the model is in [runTFJSModel]: the tensor made
    of the bitmap, [model.predict], and the first number of the data of
    the prediction.  A model is taken as that: for a bitmap, the number,
    or the message of the exception thrown on the way. *)
Definition Model : Type := ImageBitmap -> Settled num.

(** The page, the variable [model], and the calls of [runTFJSModel] in
    hand, each with what the model will give. *)
Record State : Type := {
  page : Page num;
  model : option Model;
  predicting : list (Settled num)
}.

Definition on_page (f : Page num -> Page num) (st : State) : State :=
  {| page := f (page st); model := model st; predicting := predicting st |}.

(** [loadModel], from the moment the promise of [tf.loadLayersModel]
    settles. *)
Definition loadModel (loaded : Settled Model) (st : State) : State :=
  match loaded with
  | Fulfilled m =>
      {| page := page st; model := Some m; predicting := predicting st |}
  | Rejected _ => on_page (alert "Failed to load AI detection model.") st
  end.

(** [if (!currentFile || !model) return;] and the rest, up to the first
    [await]. *)
Definition on_analyze (st : State) : State :=
  match currentFile (page st), model st with
  | Some f, Some _ => on_page (analyze_begin f) st
  | _, _ => st
  end.

(** [runTFJSModel], once the model has given its number or thrown:
    [return score * 100;] *)
Definition runTFJSModel (prediction : Settled num) : Settled num :=
  match prediction with
  | Fulfilled score => Fulfilled (score * of_Z 100)
  | Rejected message => Rejected message
  end.

(** The template of [showResult]. *)
Definition result_html (score : num) : String.string :=
  String.concat String.EmptyString
    [ newline;
      "    <div>"; verdict score; " — <strong>"; fixed browser score 1;
      "%</strong></div>"; newline;
      "    <div style="; quot;
      "font-weight:500;font-size:13px;margin-top:8px;color:#475569"; quot;
      ">"; newline;
      "      Scores ≥ 90% are flagged as AI-generated (Model-based).";
      newline;
      "    </div>"; newline;
      "    <div style="; quot; "margin-top:10px"; quot; ">"; newline;
      "      <button id="; quot; "downloadReport"; quot; " class="; quot;
      "btn"; quot; ">Download report (TXT)</button>"; newline;
      "    </div>"; newline;
      "  " ].

(** [function showResult(score)] *)
Definition showResult (score : num) (p : Page num) : Page num :=
  show (result_html score) score p.

(** The text of the report. *)
Definition report (score : num) : String.string :=
  String.concat newline
    [ "AI Image Detector — TFJS Version";
      String.append "Score: " (String.append (fixed browser score 2) "%");
      String.append "Flag: "
        (if score >= of_Z 90 then "AI-generated" else "Likely real");
      "Model: CNN binary classifier" ].

(** [function downloadReport(score)] *)
Definition downloadReport (score : num) (p : Page num) : Page num :=
  save (report score) p.

(** The handler from the moment the promise of [createImageBitmap]
    settles for the file [k] of those being decoded, up to
    [await pred.data()] in [runTFJSModel].  An exception of the model is
    taken to reach the handler when the data would: the events that can
    come in between are allowed to, whatever the model does. *)
Definition on_decoded (k : nat) (st : State) : State :=
  match nth_error (decoding (page st)) k with
  | None => st
  | Some f =>
      let st := on_page (decoded k) st in
      match createImageBitmap browser f with
      | Rejected message =>
          on_page (fun p => analyze_finally (analyze_catch message p)) st
      | Fulfilled imgBitmap =>
          match model st with
          | Some m =>
              {| page := page st; model := model st;
                 predicting := (predicting st ++ [m imgBitmap])%list |}
          | None =>
              on_page (fun p => analyze_finally (analyze_catch null_predict p)) st
          end
      end
  end.

(** The rest of the handler, when the call [k] of [runTFJSModel] is
    over. *)
Definition on_predicted (k : nat) (st : State) : State :=
  match nth_error (predicting st) k with
  | None => st
  | Some prediction =>
      let st :=
        {| page := page st; model := model st;
           predicting := without k (predicting st) |} in
      match runTFJSModel prediction with
      | Fulfilled score =>
          on_page (fun p => analyze_finally (showResult score p)) st
      | Rejected message =>
          on_page (fun p => analyze_finally (analyze_catch message p)) st
      end
  end.

Inductive Event : Type :=
| Change (f : option File)
| Load (k : nat)
| ClickReset
| ClickAnalyze
| Decoded (k : nat)
| Predicted (k : nat)
| ClickDownload.

Definition step (e : Event) (st : State) : State :=
  match e with
  | Change f => on_page (fun p => on_change f (choose browser f p)) st
  | Load k => on_page (on_load browser k) st
  | ClickReset =>
      if resetBtn_disabled (page st) then st else on_page resetAll st
  | ClickAnalyze =>
      if analyzeBtn_disabled (page st) then st else on_analyze st
  | Decoded k => on_decoded k st
  | Predicted k => on_predicted k st
  | ClickDownload =>
      match downloadReport_score (page st) with
      | Some score => on_page (downloadReport score) st
      | None => st
      end
  end.

Definition run (es : list Event) (st : State) : State :=
  fold_left (fun st e => step e st) es st.

End Tfjs.

Arguments State : clear implicits.
Arguments Model : clear implicits.

End Tfjs.
Section Pages.

Local Open Scope string_scope.

(** A page on which nothing has happened yet: no file, nothing shown,
    the buttons disabled. *)
Definition blank {num : Type} : Page num :=
  {| input_value := String.EmptyString;
     preview_src := String.EmptyString;
     previewWrap_hidden := true;
     analyzeBtn_disabled := true;
     resetBtn_disabled := true;
     loader_hidden := true;
     resultBox_hidden := true;
     resultBox_background := String.EmptyString;
     resultBox_color := String.EmptyString;
     resultBox_innerHTML := String.EmptyString;
     downloadReport_score := None;
     currentFile := None;
     alerts := [];
     downloads := [];
     reading := [];
     decoding := [] |}.

(** A browser that decodes every file to the bitmap [b]. *)
Definition decoding_to {num : Type} (b : ImageBitmap) : Browser num :=
  {| input_path := fun _ => "C:\fakepath\image.png";
     readAsDataURL := fun _ => "data:image/png;base64,";
     createImageBitmap := fun _ => Fulfilled b;
     Number_toString := fun _ => "1e+21";
     null_size := "Cannot read properties of null (reading 'size')" |}.

End Pages.

(** * Properties *)

(** ** The binary64 operations, on examples *)

(** The decimal literals of the script. *)
Lemma literals_binary64 :
  lit 299 1000 = 0.299%float /\ lit 587 1000 = 0.587%float
  /\ lit 114 1000 = 0.114%float /\ lit 25 100 = 0.25%float
  /\ lit 5 10 = 0.5%float /\ lit 45 100 = 0.45%float
  /\ lit 30 100 = 0.30%float /\ lit 10 100 = 0.10%float
  /\ lit 15 100 = 0.15%float.
Proof. repeat split; reflexivity. Qed.

(** [Math.round] rounds a tie up, also below 0, and does not round
    0.49999999999999994 up to 1. *)
Lemma round_binary64 :
  Binary64.round 2.5 = 3%Z /\ Binary64.round (-2.5) = (-2)%Z
  /\ Binary64.round 0.49999999999999994 = 0%Z
  /\ Binary64.round (-0.4) = 0%Z /\ Binary64.round 511.5 = 512%Z.
Proof. repeat split; vm_compute; reflexivity. Qed.

(** A [Float32Array] element keeps the nearest binary32 value. *)
Lemma float32_binary64 :
  Binary64.float32 0.1 = 0.10000000149011612%float
  /\ Binary64.float32 127.99999999999999 = 128%float
  /\ Binary64.float32 16777217 = 16777216%float
  /\ Binary64.float32 1e40 = infinity.
Proof. repeat split; vm_compute; reflexivity. Qed.

(** [Math.max] and [Math.min] on the two zeros and on NaN. *)
Lemma max_min_binary64 :
  Binary64.max (-0) 0 = 0%float /\ Binary64.min 0 (-0) = (-0)%float
  /\ Binary64.max 1 2 = 2%float /\ Binary64.min 1 2 = 1%float
  /\ Binary64.max nan 1 = nan /\ Binary64.min 1 nan = nan.
Proof. repeat split; reflexivity. Qed.

(** ** Arrays and loops *)

Lemma in_range (lo hi k : Z) : In k (range lo hi) <-> (lo <= k < hi)%Z.
Proof.
  unfold range. rewrite in_map_iff. split.
  - intros [n [<- Hn]]. apply in_seq in Hn. lia.
  - intros Hk. exists (Z.to_nat (k - lo)). split; [lia|].
    apply in_seq. lia.
Qed.

Lemma length_range (lo hi : Z) : length (range lo hi) = Z.to_nat (hi - lo).
Proof. unfold range. now rewrite length_map, length_seq. Qed.

Lemma fold_left_fixed {A B : Type} (f : A -> B -> A) (l : list B) (a : A) :
  (forall x, In x l -> f a x = a) -> fold_left f l a = a.
Proof.
  induction l as [|x l IH]; simpl; intros Hf; [reflexivity|].
  rewrite (Hf x) by now left. apply IH. intros y Hy. apply Hf. now right.
Qed.

Lemma fold_left_iter {A B : Type} (f : A -> B -> A) (g : A -> A) (l : list B) :
  (forall a x, In x l -> f a x = g a) ->
  forall a, fold_left f l a = Nat.iter (length l) g a.
Proof.
  induction l as [|x l IH]; simpl; intros Hf a; [reflexivity|].
  rewrite IH by (intros; apply Hf; now right).
  rewrite (Hf a x) by now left.
  clear. induction (length l); simpl; congruence.
Qed.

Lemma nth_concat_repeat {A : Type} (p : list A) (d : A) (n i c : nat) :
  (i < n)%nat -> (c < length p)%nat ->
  nth (i * length p + c) (List.concat (repeat p n)) d = nth c p d.
Proof.
  revert i. induction n as [|n IH]; intros i Hi Hc; [lia|].
  simpl. destruct i as [|i]; simpl.
  - now rewrite app_nth1.
  - rewrite app_nth2 by lia.
    replace (length p + i * length p + c - length p)%nat
      with (i * length p + c)%nat by lia.
    apply IH; lia.
Qed.

Lemma get_uniform (r g b a w h i c : Z) :
  (0 <= i < w * h)%Z -> (0 <= c < 4)%Z ->
  get (uniform r g b a w h) (i * 4 + c) 0%Z = get [r; g; b; a] c 0%Z.
Proof.
  intros Hi Hc. unfold get, uniform.
  replace (Z.to_nat (i * 4 + c))
    with (Z.to_nat i * length [r; g; b; a] + Z.to_nat c)%nat by (simpl; lia).
  apply nth_concat_repeat; simpl; lia.
Qed.

Lemma valid_uniform (r g b a w h : Z) :
  (0 <= r <= 255)%Z -> (0 <= g <= 255)%Z -> (0 <= b <= 255)%Z ->
  (0 <= a <= 255)%Z -> valid_data (uniform r g b a w h) w h.
Proof.
  intros Hr Hg Hb Ha. unfold valid_data, bytes, uniform.
  assert (E : Z.to_nat (4 * (w * h)) = (4 * Z.to_nat (w * h))%nat) by lia.
  rewrite E. clear E.
  induction (Z.to_nat (w * h)) as [|n [IHl IHf]]; simpl.
  - split; [reflexivity|constructor].
  - split; [lia|]. repeat (constructor; [assumption|]). exact IHf.
Qed.

Lemma get_map_const {A : Type} (c d : A) (lo hi k : Z) :
  (lo <= k < hi)%Z -> get (map (fun _ => c) (range lo hi)) (k - lo) d = c.
Proof.
  intros Hk. unfold get.
  assert (Hin : In (nth (Z.to_nat (k - lo)) (map (fun _ : Z => c) (range lo hi)) d)
                   (map (fun _ : Z => c) (range lo hi))).
  { apply nth_In. rewrite length_map, length_range. lia. }
  apply in_map_iff in Hin. destruct Hin as [x [Hx _]]. now symmetry.
Qed.

(** ** A canvas of one gray level

    On a canvas whose pixels all are [(v, v, v)] the three statistics are 0,
    given what the number operations do on [v]: the hypotheses of the
    section, each discharged below for binary64 (by computation) and for
    the exact numbers (by algebra). *)

Section UniformCanvas.

Context {num : Type} `{Number num}.
Local Open Scope js_scope.

Variables (v a : Z) (w h : Z).
Hypothesis Hw : (64 <= w <= 512)%Z.
Hypothesis Hh : (64 <= h <= 512)%Z.

Let data := uniform v v v a w h.

Variable gv : num.
Hypothesis gray_v :
  to_float32 (lit 299 1000 * of_Z v + lit 587 1000 * of_Z v
              + lit 114 1000 * of_Z v) = gv.
Hypothesis lap_v :
  of_Z 0 + Math_abs (of_Z (-4) * gv + gv + gv + gv + gv) = of_Z 0.
Hypothesis zero_quot :
  forall k, (1 <= k <= 262144)%Z -> of_Z 0 / of_Z k = of_Z 0.
Hypothesis mean_v :
  forall n, (1 <= n <= 262144)%Z ->
  Nat.iter (Z.to_nat n) (fun s => s + of_Z v) (of_Z 0) / of_Z n = of_Z v.
Hypothesis sq_v :
  forall n, (1 <= n <= 262144)%Z ->
  Nat.iter (Z.to_nat n) (fun s => s + of_Z v * of_Z v) (of_Z 0) / of_Z n
  = of_Z v * of_Z v.
Hypothesis std_v :
  Math_sqrt (Math_max (of_Z 0) (of_Z v * of_Z v - of_Z v * of_Z v)) = of_Z 0.
Hypothesis avg_v : (of_Z 0 + of_Z 0 + of_Z 0) / of_Z 3 = of_Z 0.
Hypothesis sat_v :
  (let r := of_Z v / of_Z 255 in
   let maxv := Math_max (Math_max r r) r in
   let minv := Math_min (Math_min r r) r in
   of_Z 0 + (if is_zero maxv then of_Z 0 else (maxv - minv) / maxv))
  = of_Z 0.

Lemma sample_uniform (i c : Z) :
  (0 <= i < w * h)%Z -> (0 <= c < 3)%Z ->
  sample data (i * 4 + c) = of_Z v.
Proof.
  intros Hi Hc. unfold sample, data. rewrite get_uniform by lia.
  assert (c = 0 \/ c = 1 \/ c = 2)%Z as [-> | [-> | ->]] by lia; reflexivity.
Qed.

Lemma sample_uniform_red (i : Z) :
  (0 <= i < w * h)%Z -> sample data (i * 4) = of_Z v.
Proof.
  intros Hi. rewrite <- (Z.add_0_r (i * 4)). apply sample_uniform; lia.
Qed.

Lemma gray_uniform :
  gray data w h = map (fun _ => gv) (range 0 (w * h)).
Proof.
  unfold gray. apply map_ext_in. intros i Hi. apply in_range in Hi.
  rewrite sample_uniform_red, !sample_uniform by lia. exact gray_v.
Qed.

Lemma lapAvg_uniform : lapAvg data w h = of_Z 0.
Proof.
  unfold lapAvg. rewrite gray_uniform.
  assert (Hsum : lapSum w h (map (fun _ => gv) (range 0 (w * h))) = of_Z 0).
  { unfold lapSum. apply fold_left_fixed. intros y Hy. apply in_range in Hy.
    apply fold_left_fixed. intros x Hx. apply in_range in Hx.
    unfold laplacian.
    assert (G : forall k, (0 <= k < w * h)%Z ->
               get (map (fun _ : Z => gv) (range 0 (w * h))) k (of_Z 0) = gv).
    { intros k Hk. rewrite <- (Z.sub_0_r k) at 1. now apply get_map_const. }
    rewrite !G by nia. exact lap_v. }
  rewrite Hsum. apply zero_quot. nia.
Qed.

Lemma N_uniform : (1 <= N w h <= 262144)%Z.
Proof. unfold N. nia. Qed.

Lemma mean_uniform (c : Z) : (0 <= c < 3)%Z -> mean data w h c = of_Z v.
Proof.
  intros Hc. unfold mean.
  rewrite fold_left_iter with (g := fun s => s + of_Z v).
  - rewrite length_range, Z.sub_0_r. apply mean_v, N_uniform.
  - intros s i Hi. apply in_range in Hi. unfold N in Hi.
    now rewrite sample_uniform.
Qed.

Lemma sq_uniform (c : Z) :
  (0 <= c < 3)%Z -> sq data w h c / of_Z (N w h) = of_Z v * of_Z v.
Proof.
  intros Hc. unfold sq.
  rewrite fold_left_iter with (g := fun s => s + of_Z v * of_Z v).
  - rewrite length_range, Z.sub_0_r. apply sq_v, N_uniform.
  - intros s i Hi. apply in_range in Hi. unfold N in Hi.
    now rewrite sample_uniform.
Qed.

Lemma std_uniform (c : Z) : (0 <= c < 3)%Z -> std data w h c = of_Z 0.
Proof.
  intros Hc. unfold std, variance.
  rewrite sq_uniform, mean_uniform by assumption. exact std_v.
Qed.

Lemma avgStd_uniform : avgStd data w h = of_Z 0.
Proof. unfold avgStd. rewrite !std_uniform by lia. exact avg_v. Qed.

Lemma avgSat_uniform : avgSat data w h = of_Z 0.
Proof.
  unfold avgSat.
  assert (Hsum : satSum data w h = of_Z 0).
  { unfold satSum. apply fold_left_fixed. intros i Hi. apply in_range in Hi.
    unfold N in Hi. unfold sat.
    rewrite sample_uniform_red, !sample_uniform by lia. exact sat_v. }
  rewrite Hsum. apply zero_quot, N_uniform.
Qed.

End UniformCanvas.

(** ** Binary64: facts checked by computation *)

Lemma sums_ok_spec (P : Z -> float -> bool) (v : float) (n : nat) :
  forall k s,
  sums_ok P v n k s = true ->
  forall m, (1 <= m <= n)%nat ->
  P (k + Z.of_nat m)%Z (Nat.iter m (fun a => a + v)%float s) = true.
Proof.
  induction n as [|n IH]; intros k s Hok m Hm; [lia|].
  simpl in Hok. destruct (P (k + 1)%Z (s + v)%float) eqn:HP; [|discriminate].
  destruct m as [|[|m]]; [lia| |].
  - simpl. exact HP.
  - specialize (IH _ _ Hok (S m) ltac:(lia)).
    rewrite Nat.iter_succ_r.
    replace (k + Z.of_nat (S (S m)))%Z with (k + 1 + Z.of_nat (S m))%Z by lia.
    exact IH.
Qed.

(** The mean of [n] copies of [v], summed one by one in binary64. *)
Lemma mean_of_sum (v q : float) :
  sums_ok (quotient_is q) v canvas_sizes 0 0%float = true ->
  forall n, (1 <= n <= 262144)%Z ->
  (Nat.iter (Z.to_nat n) (fun s => s + v) 0 / Binary64.int n)%float = q.
Proof.
  intros Hok n Hn.
  apply FloatAxioms.Leibniz.eqb_spec.
  pose proof (@sums_ok_spec _ _ _ _ _ Hok (Z.to_nat n)) as Hm.
  unfold quotient_is in Hm. rewrite Z.add_0_l, Z2Nat.id in Hm by lia.
  apply Hm. unfold canvas_sizes. lia.
Qed.

Lemma zero_quotients (k : Z) :
  (1 <= k <= 262144)%Z -> (0 / Binary64.int k)%float = 0%float.
Proof.
  intros Hk.
  assert (Hok : sums_ok (fun k _ => Leibniz.eqb (0 / Binary64.int k)%float 0%float)
                  0%float canvas_sizes 0 0%float = true)
    by (vm_compute; reflexivity).
  apply FloatAxioms.Leibniz.eqb_spec.
  pose proof (@sums_ok_spec _ _ _ _ _ Hok (Z.to_nat k)) as Hs.
  rewrite Z.add_0_l, Z2Nat.id in Hs by lia. apply Hs. unfold canvas_sizes. lia.
Qed.

(** The statistics of a black and of a mid-gray canvas, in binary64. *)
Lemma black_canvas (a w h : Z) :
  (64 <= w <= 512)%Z -> (64 <= h <= 512)%Z ->
  lapAvg (num := float) (uniform 0 0 0 a w h) w h = 0%float
  /\ avgStd (num := float) (uniform 0 0 0 a w h) w h = 0%float
  /\ avgSat (num := float) (uniform 0 0 0 a w h) w h = 0%float.
Proof.
  intros Hw Hh.
  assert (Hm : forall n, (1 <= n <= 262144)%Z ->
            (Nat.iter (Z.to_nat n) (fun s => s + Binary64.int 0) 0
             / Binary64.int n)%float = Binary64.int 0)
    by (apply mean_of_sum; vm_compute; reflexivity).
  assert (Hq : forall n, (1 <= n <= 262144)%Z ->
            (Nat.iter (Z.to_nat n)
               (fun s => s + Binary64.int 0 * Binary64.int 0) 0
             / Binary64.int n)%float = (Binary64.int 0 * Binary64.int 0)%float)
    by (apply mean_of_sum; vm_compute; reflexivity).
  repeat split.
  - apply (@lapAvg_uniform float Binary64.number 0 a w h Hw Hh 0%float);
      solve [reflexivity | exact zero_quotients].
  - apply (@avgStd_uniform float Binary64.number 0 a w h Hw Hh);
      solve [assumption | reflexivity].
  - apply (@avgSat_uniform float Binary64.number 0 a w h Hw Hh);
      solve [reflexivity | exact zero_quotients].
Qed.

Lemma gray_canvas (a w h : Z) :
  (64 <= w <= 512)%Z -> (64 <= h <= 512)%Z ->
  lapAvg (num := float) (uniform 128 128 128 a w h) w h = 0%float
  /\ avgStd (num := float) (uniform 128 128 128 a w h) w h = 0%float
  /\ avgSat (num := float) (uniform 128 128 128 a w h) w h = 0%float.
Proof.
  intros Hw Hh.
  assert (Hm : forall n, (1 <= n <= 262144)%Z ->
            (Nat.iter (Z.to_nat n) (fun s => s + Binary64.int 128) 0
             / Binary64.int n)%float = Binary64.int 128)
    by (apply mean_of_sum; vm_compute; reflexivity).
  assert (Hq : forall n, (1 <= n <= 262144)%Z ->
            (Nat.iter (Z.to_nat n)
               (fun s => s + Binary64.int 128 * Binary64.int 128) 0
             / Binary64.int n)%float
            = (Binary64.int 128 * Binary64.int 128)%float)
    by (apply mean_of_sum; vm_compute; reflexivity).
  repeat split.
  - apply (@lapAvg_uniform float Binary64.number 128 a w h Hw Hh 128%float);
      solve [reflexivity | exact zero_quotients].
  - apply (@avgStd_uniform float Binary64.number 128 a w h Hw Hh);
      solve [assumption | reflexivity].
  - apply (@avgSat_uniform float Binary64.number 128 a w h Hw Hh);
      solve [reflexivity | exact zero_quotients].
Qed.

(** ** The two reference images, in binary64 *)

Local Open Scope string_scope.

(** C2. A black canvas (every pixel R = G = B = 0), a file of 0 bytes and the
    draw 0.5, for which the jitter is 0: the Laplacian average, the average
    standard deviation and the average saturation are 0, the saturation of
    each pixel being 0 by the [maxv === 0] branch; the size term is 1; the
    score is exactly 90; [score >= 90] holds and the verdict is
    "AI-generated".  Binary64 arithmetic, every canvas from 64 by 64 to
    512 by 512. *)
Theorem black_image_scores_90 (a w h : Z) :
  (64 <= w <= 512)%Z -> (64 <= h <= 512)%Z ->
  let data := uniform 0 0 0 a w h in
  let file := {| size := 0 |} in
  jitter 0.5%float = 0%float
  /\ lapAvg (num := float) data w h = 0%float
  /\ avgStd (num := float) data w h = 0%float
  /\ (forall i, (0 <= i < w * h)%Z ->
      let r := (sample data (i * 4) / 255)%float in
      let g := (sample data (i * 4 + 1) / 255)%float in
      let b := (sample data (i * 4 + 2) / 255)%float in
      is_zero (Math_max (Math_max r g) b) = true
      /\ sat (num := float) data i = 0%float)
  /\ avgSat (num := float) data w h = 0%float
  /\ sizeNorm (sizeKB (num := float) file) = 1%float
  /\ scoreOf data w h file 0.5%float = 90%float
  /\ geq (scoreOf data w h file 0.5%float) 90%float = true
  /\ verdict (scoreOf data w h file 0.5%float) = "AI-generated".
Proof.
  intros Hw Hh data file.
  destruct (black_canvas a Hw Hh) as (HL & HS & HA).
  assert (Hscore : scoreOf data w h file 0.5%float = 90%float).
  { unfold scoreOf. fold data in HL, HS, HA. rewrite HL, HS, HA. reflexivity. }
  rewrite Hscore.
  repeat split; try assumption; try reflexivity.
  all: subst data; try (unfold sat); cbv zeta;
    rewrite (sample_uniform_red (num := float)),
            !(sample_uniform (num := float)) by lia;
    reflexivity.
Qed.

(** A black bitmap of 1024 by 768 pixels is drawn on a canvas of 512 by 384
    and scores 90. *)
Lemma black_image_scores_90_witness :
  fst (computeScoreFromBitmap (plain 1024 768 0 0 0 255) {| size := 0 |}
         (realm_of 0.5%float 0.5%float)) = Fulfilled 90%float
  /\ verdict 90%float = "AI-generated".
Proof.
  assert (Hw : canvas_w (num := float) (plain 1024 768 0 0 0 255) = 512%Z)
    by (vm_compute; reflexivity).
  assert (Hh : canvas_h (num := float) (plain 1024 768 0 0 0 255) = 384%Z)
    by (vm_compute; reflexivity).
  unfold computeScoreFromBitmap. rewrite Hw, Hh.
  cbn [Math_random realm_of draws taken fst plain drawn].
  pose proof (@black_image_scores_90 255 512 384 ltac:(lia) ltac:(lia)) as T.
  cbv zeta in T. destruct T as (_ & _ & _ & _ & _ & _ & Hs & _ & Hv).
  rewrite Hs in *. split; [reflexivity | exact Hv].
Defined.

(** C3. A mid-gray canvas (every pixel R = G = B = 128), a file of 10240
    bytes and the draw 0.5 (jitter 0): the normalised terms are 1, 1, 0 and
    0.9, their weighted sum is 0.885, the score is exactly 88.5, which is
    not [>= 90], and the verdict is "Likely real".  Binary64 arithmetic,
    every canvas from 64 by 64 to 512 by 512. *)
Theorem gray_image_scores_88_5 (a w h : Z) :
  (64 <= w <= 512)%Z -> (64 <= h <= 512)%Z ->
  let data := uniform 128 128 128 a w h in
  let file := {| size := 10240 |} in
  jitter 0.5%float = 0%float
  /\ lapNorm (lapAvg (num := float) data w h) = 1%float
  /\ stdNorm (avgStd (num := float) data w h) = 1%float
  /\ satNorm (avgSat (num := float) data w h) = 0%float
  /\ sizeNorm (sizeKB (num := float) file) = 0.9%float
  /\ (1 * 0.45 + 1 * 0.30 + 0 * 0.10 + 0.9 * 0.15 = 0.885)%float
  /\ score (lapAvg data w h) (avgStd data w h) (avgSat data w h) (sizeKB file)
     = 88.5%float
  /\ scoreOf data w h file 0.5%float = 88.5%float
  /\ geq (scoreOf data w h file 0.5%float) 90%float = false
  /\ verdict (scoreOf data w h file 0.5%float) = "Likely real".
Proof.
  intros Hw Hh data file.
  destruct (gray_canvas a Hw Hh) as (HL & HS & HA).
  fold data in HL, HS, HA.
  unfold scoreOf. rewrite HL, HS, HA.
  repeat split; reflexivity.
Qed.

(** A mid-gray bitmap of 800 by 600 pixels is drawn on a canvas of 512 by
    384 and scores 88.5. *)
Lemma gray_image_scores_88_5_witness :
  fst (computeScoreFromBitmap (plain 800 600 128 128 128 255)
         {| size := 10240 |} (realm_of 0.5%float 0.5%float))
  = Fulfilled 88.5%float
  /\ verdict 88.5%float = "Likely real".
Proof.
  assert (Hw : canvas_w (num := float) (plain 800 600 128 128 128 255) = 512%Z)
    by (vm_compute; reflexivity).
  assert (Hh : canvas_h (num := float) (plain 800 600 128 128 128 255) = 384%Z)
    by (vm_compute; reflexivity).
  unfold computeScoreFromBitmap. rewrite Hw, Hh.
  cbn [Math_random realm_of draws taken fst plain drawn].
  pose proof (@gray_image_scores_88_5 255 512 384 ltac:(lia) ltac:(lia)) as T.
  cbv zeta in T. destruct T as (_ & _ & _ & _ & _ & _ & _ & Hs & _ & Hv).
  rewrite Hs in *. split; [reflexivity | exact Hv].
Defined.

(** ** The size of the canvas *)

Local Open Scope R_scope.

Lemma scale_exact (b : ImageBitmap) :
  scale (num := R) b = Rmin 1 (512 / Rmax (IZR (width b)) (IZR (height b))).
Proof. reflexivity. Qed.

(** [Math.round] gives the nearest integer, and the upper one at a tie. *)
Lemma round_exact (x : R) :
  IZR (Math_round x) - / 2 <= x < IZR (Math_round x) + / 2.
Proof.
  cbn [Math_round Exact.number].
  pose proof (Zfloor_bound (x + / 2)). lra.
Qed.


Lemma round_exact_le (x : R) (k : Z) :
  x <= IZR k -> (Math_round x <= k)%Z.
Proof.
  intros Hx. pose proof (round_exact x) as [Hr _].
  assert (Hlt : IZR (Math_round x) < IZR (k + 1)) by (rewrite plus_IZR; lra).
  apply lt_IZR in Hlt. lia.
Qed.

Lemma scale_bounds (b : ImageBitmap) :
  (0 < width b)%Z -> (0 < height b)%Z ->
  0 < scale (num := R) b <= 1
  /\ IZR (width b) * scale b <= 512
  /\ IZR (height b) * scale b <= 512.
Proof.
  intros HW HH. rewrite scale_exact.
  apply IZR_lt in HW, HH.
  set (W := IZR (width b)) in *. set (H := IZR (height b)) in *.
  assert (Hm : 0 < Rmax W H) by (unfold Rmax; destruct (Rle_dec W H); lra).
  assert (HWm : W <= Rmax W H) by apply Rmax_l.
  assert (HHm : H <= Rmax W H) by apply Rmax_r.
  set (m := Rmax W H) in *.
  assert (Hq : 0 < 512 / m) by (apply Rdiv_lt_0_compat; lra).
  assert (Hs : 0 < Rmin 1 (512 / m) <= 1 /\ Rmin 1 (512 / m) <= 512 / m).
  { unfold Rmin; destruct (Rle_dec 1 (512 / m)); lra. }
  destruct Hs as [[Hs0 Hs1] Hs2].
  assert (Hmq : m * (512 / m) = 512) by (field; lra).
  repeat split; try lra; nra.
Qed.

Lemma canvas_side_range (b : ImageBitmap) :
  (0 < width b)%Z -> (0 < height b)%Z ->
  (64 <= canvas_w (num := R) b <= 512)%Z
  /\ (64 <= canvas_h (num := R) b <= 512)%Z.
Proof.
  intros HW HH.
  destruct (scale_bounds b HW HH) as (_ & Hw & Hh).
  apply round_exact_le in Hw, Hh.
  change (canvas_w b) with (Z.max 64 (Math_round (IZR (width b) * scale b))).
  change (canvas_h b) with (Z.max 64 (Math_round (IZR (height b) * scale b))).
  lia.
Qed.







(** The same sizes are computed in binary64: for instance 387 * (512 / 3072)
    is 64.5 and rounds up. *)
Lemma canvas_sizes_binary64 :
  (canvas_w (num := float) (plain 4000 3000 0 0 0 255),
   canvas_h (num := float) (plain 4000 3000 0 0 0 255)) = (512, 384)%Z
  /\ (canvas_w (num := float) (plain 3072 387 0 0 0 255),
      canvas_h (num := float) (plain 3072 387 0 0 0 255)) = (512, 65)%Z
  /\ (canvas_w (num := float) (plain 300 20 0 0 0 255),
      canvas_h (num := float) (plain 300 20 0 0 0 255)) = (300, 64)%Z
  /\ (canvas_w (num := float) (plain 1 1 0 0 0 255),
      canvas_h (num := float) (plain 1 1 0 0 0 255)) = (64, 64)%Z.
Proof. repeat split; vm_compute; reflexivity. Qed.


(** ** A bitmap of zero area *)




(** ** The random draw *)




(** ** The score, in exact arithmetic *)




(** ** The final clamp, in binary64

    Binary64 has NaN, which [Math.min] and [Math.max] return when they are
    given it; every other number is clamped as in exact arithmetic. *)

Lemma SFcompare_antisym (x y : SpecFloat.spec_float) (c : comparison) :
  SpecFloat.SFcompare x y = Some c -> SpecFloat.SFcompare y x = Some (CompOpp c).
Proof.
  destruct x as [sx|sx| |sx mx ex], y as [sy|sy| |sy my ey]; simpl;
    try discriminate;
    try (destruct sx); try (destruct sy); intros E; inversion E; subst; clear E;
    try reflexivity.
  - rewrite (Z.compare_antisym ex ey).
    destruct (ex ?= ey)%Z; simpl; try reflexivity.
    change PosDef.Pos.compare_cont with Pos.compare_cont.
    now rewrite (Pos.compare_cont_antisym mx my Eq).
  - rewrite (Z.compare_antisym ex ey).
    destruct (ex ?= ey)%Z; simpl; try reflexivity.
    change PosDef.Pos.compare_cont with Pos.compare_cont.
    now rewrite (Pos.compare_cont_antisym mx my Eq).
Qed.

Lemma SFcompare_defined (x y : SpecFloat.spec_float) :
  x <> SpecFloat.S754_nan -> y <> SpecFloat.S754_nan -> exists c, SpecFloat.SFcompare x y = Some c.
Proof.
  destruct x, y; simpl; intros Hx Hy; try congruence; eauto.
Qed.

Lemma is_nan_spec (x : float) :
  is_nan x = false -> FloatOps.Prim2SF x <> SpecFloat.S754_nan.
Proof.
  unfold is_nan. rewrite FloatAxioms.eqb_spec. intros E Hn. rewrite Hn in E.
  discriminate.
Qed.

Lemma ltb_leb (x y : float) : PrimFloat.ltb x y = true -> PrimFloat.leb x y = true.
Proof.
  rewrite FloatAxioms.ltb_spec, FloatAxioms.leb_spec. unfold SpecFloat.SFltb, SpecFloat.SFleb.
  destruct (SpecFloat.SFcompare _ _) as [[| |]|]; congruence.
Qed.

Lemma not_ltb_leb (x y : float) :
  is_nan x = false -> is_nan y = false ->
  PrimFloat.ltb x y = false -> PrimFloat.leb y x = true.
Proof.
  intros Hx Hy. apply is_nan_spec in Hx, Hy.
  rewrite FloatAxioms.ltb_spec, FloatAxioms.leb_spec. unfold SpecFloat.SFltb, SpecFloat.SFleb.
  destruct (SFcompare_defined Hx Hy) as [c Hc].
  rewrite Hc, (SFcompare_antisym _ _ Hc). destruct c; simpl; congruence.
Qed.

(** In binary64 the clamp of a number that is not NaN is between 0 and
    100. *)
Lemma clamp_binary64 (v : float) :
  is_nan v = false ->
  PrimFloat.leb 0 (clamp v 0%float 100%float) = true
  /\ PrimFloat.leb (clamp v 0%float 100%float) 100 = true.
Proof.
  intros Hv. unfold clamp. cbn [Math_max Math_min Binary64.number].
  assert (Hm : exists m, Binary64.min 100 v = m /\ is_nan m = false
                         /\ PrimFloat.leb m 100 = true).
  { unfold Binary64.min. rewrite Hv. change (is_nan 100) with false. cbn [orb].
    destruct (PrimFloat.ltb 100 v) eqn:E1.
    - eexists; repeat split; reflexivity.
    - exists v. change (get_sign 100) with false.
      split; [now destruct (PrimFloat.ltb v 100)|]. split; [assumption|].
      apply not_ltb_leb; auto. }
  destruct Hm as (m & -> & Hmn & Hm).
  unfold Binary64.max. rewrite Hmn. change (is_nan 0) with false. cbn [orb].
  change (get_sign 0) with false.
  destruct (PrimFloat.ltb 0 m) eqn:E1.
  - split; [now apply ltb_leb | assumption].
  - assert ((if PrimFloat.ltb m 0 then 0 else 0)%float = 0%float) as ->
      by now destruct (PrimFloat.ltb m 0).
    split; reflexivity.
Qed.

Lemma clamp_binary64_nan (v : float) :
  is_nan v = true -> is_nan (clamp v 0%float 100%float) = true.
Proof.
  intros Hv. unfold clamp. cbn [Math_max Math_min Binary64.number].
  unfold Binary64.min. rewrite Hv, orb_true_r. reflexivity.
Qed.

(** The score in binary64: between 0 and 100, unless score + jitter is NaN. *)
Lemma score_within_0_100_binary64 (b : ImageBitmap) (file : File)
    (realm : Realm float) :
  exists s : float,
    fst (computeScoreFromBitmap b file realm) = Fulfilled s
    /\ (is_nan s = true
        \/ (PrimFloat.leb 0 s = true /\ PrimFloat.leb s 100 = true)).
Proof.
  eexists. split; [reflexivity|]. unfold scoreOf, finalScore.
  match goal with |- context [clamp ?v _ _] => destruct (is_nan v) eqn:Hv end.
  - left. now apply clamp_binary64_nan.
  - right. now apply clamp_binary64.
Qed.

(** The jitter of the least and of the greatest draw, and of 0.5, in
    binary64. *)
Lemma jitter_binary64 :
  jitter 0%float = (-3)%float
  /\ jitter (next_down 1) = 2.9999999999999991%float
  /\ jitter 0.5%float = 0%float.
Proof. repeat split; reflexivity. Qed.

(** ** The jitter and the weights, in exact arithmetic *)

Lemma lit_exact (n d : Z) : lit (num := R) n d = IZR n / IZR d.
Proof. reflexivity. Qed.










(** ** The two reference images, in exact arithmetic *)

Lemma iter_sum_exact (x : R) (n : nat) :
  Nat.iter n (fun s => s + x) 0 = INR n * x.
Proof.
  induction n as [|n IH]; [simpl; lra|].
  rewrite S_INR. simpl. rewrite IH. lra.
Qed.

Lemma mean_of_sum_exact (x : R) (n : Z) :
  (1 <= n)%Z -> Nat.iter (Z.to_nat n) (fun s => s + x) 0 / IZR n = x.
Proof.
  intros Hn. rewrite iter_sum_exact, INR_IZR_INZ, Z2Nat.id by lia.
  assert (0 < IZR n) by (apply IZR_lt; lia). field. lra.
Qed.

Lemma uniform_canvas_exact (v a w h : Z) :
  (64 <= w <= 512)%Z -> (64 <= h <= 512)%Z ->
  lapAvg (num := R) (uniform v v v a w h) w h = 0
  /\ avgStd (num := R) (uniform v v v a w h) w h = 0
  /\ avgSat (num := R) (uniform v v v a w h) w h = 0.
Proof.
  intros Hw Hh.
  assert (Hz : forall k, (1 <= k <= 262144)%Z -> (of_Z 0 / of_Z k)%js = of_Z (num := R) 0).
  { intros k _. cbn [of_Z ndiv Exact.number]. unfold Rdiv. apply Rmult_0_l. }
  repeat split.
  - apply (@lapAvg_uniform R Exact.number v a w h Hw Hh (IZR v)); [| |exact Hz].
    + rewrite !lit_exact. cbn [of_Z nadd nmul to_float32 Exact.number]. lra.
    + cbn [of_Z nadd nmul Math_abs Exact.number].
      replace (-4 * IZR v + IZR v + IZR v + IZR v + IZR v) with 0 by lra.
      rewrite Rabs_R0. lra.
  - apply (@avgStd_uniform R Exact.number v a w h Hw Hh).
    + intros n Hn. apply mean_of_sum_exact. lia.
    + intros n Hn. apply mean_of_sum_exact. lia.
    + cbn [of_Z nsub nmul Math_max Math_sqrt Exact.number].
      replace (IZR v * IZR v - IZR v * IZR v) with 0 by lra.
      rewrite Rmax_left by lra. apply sqrt_0.
    + cbn [of_Z nadd ndiv Exact.number]. lra.
  - apply (@avgSat_uniform R Exact.number v a w h Hw Hh); [exact Hz|].
    cbn [of_Z nadd nsub ndiv Math_max Math_min is_zero Exact.number].
    set (r := IZR v / 255).
    assert (Emax : Rmax r r = r) by (unfold Rmax; now destruct (Rle_dec r r)).
    assert (Emin : Rmin r r = r) by (unfold Rmin; now destruct (Rle_dec r r)).
    rewrite !Emax, !Emin.
    unfold Exact.eq0. destruct (Req_dec_T r 0); [lra|].
    unfold Rdiv. rewrite Rminus_diag. lra.
Qed.

Lemma clamp_exact_mid (v a b : R) : a <= v <= b -> clamp v a b = v.
Proof.
  intros Hv. unfold clamp. cbn [Math_max Math_min Exact.number].
  rewrite Rmin_right, Rmax_right; lra.
Qed.

Lemma clamp_exact_low (v a b : R) : v <= a <= b -> clamp v a b = a.
Proof.
  intros Hv. unfold clamp. cbn [Math_max Math_min Exact.number].
  rewrite Rmin_right, Rmax_left; lra.
Qed.

(** The scores of the black and of the mid-gray canvas are 90 and 88.5 in
    exact arithmetic as well. *)
Lemma reference_scores_exact (a w h : Z) :
  (64 <= w <= 512)%Z -> (64 <= h <= 512)%Z ->
  scoreOf (uniform 0 0 0 a w h) w h {| size := 0 |} (1 / 2) = 90
  /\ scoreOf (uniform 128 128 128 a w h) w h {| size := 10240 |} (1 / 2) = 88.5.
Proof.
  intros Hw Hh.
  destruct (uniform_canvas_exact 0 a Hw Hh) as (HL0 & HS0 & HA0).
  destruct (uniform_canvas_exact 128 a Hw Hh) as (HL1 & HS1 & HA1).
  unfold scoreOf. rewrite HL0, HS0, HA0, HL1, HS1, HA1.
  unfold finalScore, score, jitter, lapNorm, stdNorm, satNorm, sizeNorm, sizeKB.
  rewrite !lit_exact. cbn [of_Z nadd nsub nmul ndiv Math_min size Exact.number].
  rewrite !Rmin_left by lra.
  rewrite (clamp_exact_mid (v := (150 - 0) / 150)) by lra.
  rewrite (clamp_exact_mid (v := (60 - 0) / 60)) by lra.
  rewrite (clamp_exact_low (v := (0 - 25 / 100) / (5 / 10))) by lra.
  rewrite (clamp_exact_mid (v := (100 - 0 / 1024) / 100)) by lra.
  rewrite (clamp_exact_mid (v := (100 - 10240 / 1024) / 100)) by lra.
  split; rewrite clamp_exact_mid; lra.
Qed.

(** A black and a mid-gray bitmap of any positive size, scored from the
    bitmap to the promise. *)
Lemma reference_bitmaps_exact (W H a : Z) (realm : Realm R) :
  (0 < W)%Z -> (0 < H)%Z -> draws realm (taken realm) = 1 / 2 ->
  fst (computeScoreFromBitmap (plain W H 0 0 0 a) {| size := 0 |} realm)
  = Fulfilled 90
  /\ fst (computeScoreFromBitmap (plain W H 128 128 128 a)
            {| size := 10240 |} realm)
     = Fulfilled 88.5.
Proof.
  intros HW HH Hu.
  destruct (@canvas_side_range (plain W H 0 0 0 a) HW HH) as [Hw0 Hh0].
  destruct (@canvas_side_range (plain W H 128 128 128 a) HW HH) as [Hw1 Hh1].
  destruct (reference_scores_exact a Hw0 Hh0) as [E0 _].
  destruct (reference_scores_exact a Hw1 Hh1) as [_ E1].
  unfold computeScoreFromBitmap, Math_random. cbn [fst]. rewrite Hu.
  cbn [plain drawn]. rewrite E0, E1. split; reflexivity.
Qed.

(** ** The features, in exact arithmetic *)




Section ExactFeatures.

Variable data : list Z.
Variables w h : Z.
Hypothesis Hdata : bytes data.
Hypothesis Hw : (3 <= w)%Z.
Hypothesis Hh : (3 <= h)%Z.








End ExactFeatures.




(** * Further properties of the script *)

(** ** What the score reads of the canvas *)

Lemma fold_left_ext_in {A B : Type} (f g : A -> B -> A) (l : list B) :
  (forall a x, In x l -> f a x = g a x) ->
  forall a, fold_left f l a = fold_left g l a.
Proof.
  induction l as [|x l IH]; simpl; intros Hfg a; [reflexivity|].
  rewrite (Hfg a x) by now left. apply IH. intros; apply Hfg; now right.
Qed.

Section SameColours.

Context {num : Type} `{Number num}.
Variables (data data' : list Z) (w h : Z).
Hypothesis same :
  forall i c, (0 <= i < w * h)%Z -> (0 <= c < 3)%Z ->
  get data (i * 4 + c) 0%Z = get data' (i * 4 + c) 0%Z.

Lemma sample_same (i c : Z) :
  (0 <= i < w * h)%Z -> (0 <= c < 3)%Z ->
  sample data (i * 4 + c) = sample data' (i * 4 + c).
Proof. intros Hi Hc. unfold sample. now rewrite same. Qed.

Lemma sample_same_red (i : Z) :
  (0 <= i < w * h)%Z -> sample data (i * 4) = sample data' (i * 4).
Proof.
  intros Hi. rewrite <- (Z.add_0_r (i * 4)). apply sample_same; lia.
Qed.

Lemma gray_same : gray data w h = gray data' w h.
Proof.
  unfold gray. apply map_ext_in. intros i Hi. apply in_range in Hi.
  now rewrite sample_same_red, !sample_same by lia.
Qed.

Lemma mean_same (c : Z) : (0 <= c < 3)%Z -> mean data w h c = mean data' w h c.
Proof.
  intros Hc. unfold mean. f_equal. apply fold_left_ext_in.
  intros a i Hi. apply in_range in Hi. unfold N in Hi. now rewrite sample_same.
Qed.

Lemma sq_same (c : Z) : (0 <= c < 3)%Z -> sq data w h c = sq data' w h c.
Proof.
  intros Hc. unfold sq. apply fold_left_ext_in.
  intros a i Hi. apply in_range in Hi. unfold N in Hi. now rewrite sample_same.
Qed.

Lemma sat_same (i : Z) : (0 <= i < w * h)%Z -> sat data i = sat data' i.
Proof.
  intros Hi. unfold sat. now rewrite sample_same_red, !sample_same by lia.
Qed.

Lemma features_same :
  lapAvg data w h = lapAvg data' w h
  /\ avgStd data w h = avgStd data' w h
  /\ avgSat data w h = avgSat data' w h.
Proof.
  repeat split.
  - unfold lapAvg. now rewrite gray_same.
  - unfold avgStd, std, variance.
    now rewrite !sq_same, !mean_same by lia.
  - unfold avgSat, satSum. f_equal. apply fold_left_ext_in.
    intros a i Hi. apply in_range in Hi. unfold N in Hi. now rewrite sat_same.
Qed.

End SameColours.

(** X1. The score does not read the alpha channel: two canvases whose red,
    green and blue bytes agree at every pixel get the same score, for the
    same file and draw, whatever their alpha bytes are.  Any arithmetic. *)
Theorem score_ignores_alpha {num : Type} `{Number num}
    (data data' : list Z) (w h : Z) (file : File) (u : num) :
  (forall i c, (0 <= i < w * h)%Z -> (0 <= c < 3)%Z ->
     get data (i * 4 + c) 0%Z = get data' (i * 4 + c) 0%Z) ->
  scoreOf data w h file u = scoreOf data' w h file u.
Proof.
  intros Hsame.
  destruct (features_same data data' w h Hsame) as (HL & HS & HA).
  unfold scoreOf. now rewrite HL, HS, HA.
Qed.

Lemma score_ignores_alpha_witness :
  scoreOf (uniform 10 200 30 255 64 64) 64 64 {| size := 2048 |} 0.25%float
  = scoreOf (uniform 10 200 30 0 64 64) 64 64 {| size := 2048 |} 0.25%float.
Proof.
  apply score_ignores_alpha. intros i c Hi Hc.
  rewrite !get_uniform by lia.
  assert (c = 0 \/ c = 1 \/ c = 2)%Z as [-> | [-> | ->]] by lia; reflexivity.
Defined.

Lemma all_upto_spec (n : Z) (P : Z -> bool) :
  all_upto n P = true -> forall v, (0 <= v <= n)%Z -> P v = true.
Proof.
  unfold all_upto. rewrite forallb_forall. intros HP v Hv.
  apply HP, in_range. lia.
Qed.

Lemma get_byte (data : list Z) (k : Z) :
  bytes data -> (0 <= get data k 0 <= 255)%Z.
Proof.
  intros Hd. unfold get.
  destruct (Nat.lt_ge_cases (Z.to_nat k) (length data)) as [Hlt | Hge].
  - unfold bytes in Hd. rewrite Forall_forall in Hd. apply Hd. now apply nth_In.
  - rewrite nth_overflow by assumption. lia.
Qed.

(** The saturation of a gray pixel, whatever its level. *)
Lemma gray_pixel_binary64 (v : Z) :
  (0 <= v <= 255)%Z ->
  (let r := (Binary64.int v / 255)%float in
   let maxv := Binary64.max (Binary64.max r r) r in
   let minv := Binary64.min (Binary64.min r r) r in
   if PrimFloat.eqb maxv 0 then 0 else (maxv - minv) / maxv)%float
  = 0%float.
Proof.
  intros Hv. apply FloatAxioms.Leibniz.eqb_spec. revert v Hv.
  apply (@all_upto_spec 255%Z
           (fun v =>
              let r := (Binary64.int v / 255)%float in
              let maxv := Binary64.max (Binary64.max r r) r in
              let minv := Binary64.min (Binary64.min r r) r in
              Leibniz.eqb
                (if PrimFloat.eqb maxv 0 then 0 else (maxv - minv) / maxv)%float
                0%float)).
  vm_compute. reflexivity.
Qed.

(** X2. A canvas of gray pixels (red = green = blue at every pixel, of any
    level, varying from pixel to pixel or not) has saturation 0 at every
    pixel, average saturation 0 and a saturation term of 0 in the score.
    Binary64 arithmetic, for every canvas from 64 by 64 to 512 by 512. *)
Theorem grayscale_has_no_saturation (data : list Z) (w h : Z) :
  bytes data ->
  (forall i, (0 <= i < w * h)%Z ->
     get data (i * 4 + 1) 0%Z = get data (i * 4) 0%Z
     /\ get data (i * 4 + 2) 0%Z = get data (i * 4) 0%Z) ->
  (64 <= w <= 512)%Z -> (64 <= h <= 512)%Z ->
  (forall i, (0 <= i < w * h)%Z -> sat (num := float) data i = 0%float)
  /\ avgSat (num := float) data w h = 0%float
  /\ satNorm (avgSat (num := float) data w h) = 0%float.
Proof.
  intros Hd Hgray Hw Hh.
  assert (Hsat : forall i, (0 <= i < w * h)%Z ->
            sat (num := float) data i = 0%float).
  { intros i Hi. destruct (Hgray i Hi) as [Hg Hb].
    unfold sat, sample. rewrite Hg, Hb.
    apply (gray_pixel_binary64 (get_byte (i * 4) Hd)). }
  assert (Havg : avgSat (num := float) data w h = 0%float).
  { unfold avgSat.
    assert (Hsum : satSum (num := float) data w h = 0%float).
    { unfold satSum. apply fold_left_fixed. intros i Hi. apply in_range in Hi.
      unfold N in Hi. rewrite Hsat by assumption. reflexivity. }
    rewrite Hsum. apply zero_quotients. unfold N. nia. }
  split; [exact Hsat|]. split; [exact Havg|]. rewrite Havg. reflexivity.
Qed.

Lemma grayscale_has_no_saturation_witness :
  avgSat (num := float) (uniform 77 77 77 255 64 64) 64 64 = 0%float.
Proof.
  refine (proj1 (proj2 (@grayscale_has_no_saturation
                          (uniform 77 77 77 255 64 64) 64 64 _ _ _ _))).
  - apply valid_uniform; lia.
  - intros i Hi. rewrite <- (Z.add_0_r (i * 4)) at 2 4.
    rewrite !get_uniform by lia. split; reflexivity.
  - lia.
  - lia.
Defined.

(** ** The verdict and the draw *)








(** ** clamp, Math.min and Math.max in binary64 *)

Lemma leb_refl_binary64 (x : float) : is_nan x = false -> PrimFloat.leb x x = true.
Proof.
  intros Hx. apply not_ltb_leb; try assumption.
  destruct (PrimFloat.ltb x x) eqn:E; [|reflexivity].
  pose proof Hx as Hn. apply is_nan_spec in Hn.
  rewrite FloatAxioms.ltb_spec in E. unfold SpecFloat.SFltb in E.
  destruct (SFcompare_defined Hn Hn) as [c Hc].
  pose proof (SFcompare_antisym _ _ Hc) as Ha. rewrite Hc in E, Ha.
  destruct c; simpl in Ha; congruence.
Qed.

(** [Math.min] and [Math.max] of two numbers that are not NaN: one of the
    two, on the right side of both. *)
Lemma min_binary64 (x y : float) :
  is_nan x = false -> is_nan y = false ->
  (Binary64.min x y = x \/ Binary64.min x y = y)
  /\ PrimFloat.leb (Binary64.min x y) x = true
  /\ PrimFloat.leb (Binary64.min x y) y = true.
Proof.
  intros Hx Hy. unfold Binary64.min. rewrite Hx, Hy. cbn [orb].
  destruct (PrimFloat.ltb x y) eqn:E1.
  { repeat split; auto using leb_refl_binary64. now apply ltb_leb. }
  destruct (PrimFloat.ltb y x) eqn:E2.
  { repeat split; auto using leb_refl_binary64. now apply ltb_leb. }
  destruct (get_sign x);
    repeat split; auto using leb_refl_binary64, not_ltb_leb.
Qed.

Lemma max_binary64 (x y : float) :
  is_nan x = false -> is_nan y = false ->
  (Binary64.max x y = x \/ Binary64.max x y = y)
  /\ PrimFloat.leb x (Binary64.max x y) = true
  /\ PrimFloat.leb y (Binary64.max x y) = true.
Proof.
  intros Hx Hy. unfold Binary64.max. rewrite Hx, Hy. cbn [orb].
  destruct (PrimFloat.ltb x y) eqn:E1.
  { repeat split; auto using leb_refl_binary64. now apply ltb_leb. }
  destruct (PrimFloat.ltb y x) eqn:E2.
  { repeat split; auto using leb_refl_binary64. now apply ltb_leb. }
  destruct (get_sign x);
    repeat split; auto using leb_refl_binary64, not_ltb_leb.
Qed.

(** X5. [clamp(v, a, b)] in binary64, for bounds [a <= b]: NaN for NaN, and
    otherwise one of [v], [a] and [b], between [a] and [b]. *)
Theorem clamp_binary64_bounds (v a b : float) :
  is_nan a = false -> is_nan b = false -> PrimFloat.leb a b = true ->
  (is_nan v = true -> is_nan (clamp v a b) = true)
  /\ (is_nan v = false ->
      PrimFloat.leb a (clamp v a b) = true
      /\ PrimFloat.leb (clamp v a b) b = true
      /\ (clamp v a b = v \/ clamp v a b = a \/ clamp v a b = b)).
Proof.
  intros Ha Hb Hab. unfold clamp. cbn [Math_max Math_min Binary64.number].
  split; intros Hv.
  - unfold Binary64.min. rewrite Hv, orb_true_r. unfold Binary64.max.
    change (is_nan nan) with true. now rewrite orb_true_r.
  - destruct (min_binary64 b v Hb Hv) as (Hm & Hmb & _).
    assert (Hmn : is_nan (Binary64.min b v) = false)
      by (destruct Hm as [-> | ->]; assumption).
    destruct (max_binary64 a _ Ha Hmn) as (Hr & Har & _).
    split; [exact Har|]. split.
    + destruct Hr as [-> | ->]; assumption.
    + destruct Hr as [-> | ->]; [tauto|]. destruct Hm as [-> | ->]; tauto.
Qed.

Lemma clamp_binary64_bounds_witness :
  PrimFloat.leb 0 (clamp 1.5%float 0%float 1%float) = true
  /\ PrimFloat.leb (clamp 1.5%float 0%float 1%float) 1 = true
  /\ (clamp 1.5%float 0%float 1%float = 1.5%float
      \/ clamp 1.5%float 0%float 1%float = 0%float
      \/ clamp 1.5%float 0%float 1%float = 1%float).
Proof.
  apply (@clamp_binary64_bounds 1.5%float 0%float 1%float); reflexivity.
Defined.

(** ** The size of the canvas *)

Lemma small_side_binary64 (d : Z) :
  (0 <= d <= 512)%Z ->
  is_nan (Binary64.int d) = false
  /\ Binary64.min 1 (512 / Binary64.int d) = 1%float
  /\ Binary64.round (Binary64.int d * 1) = d.
Proof.
  intros Hd.
  pose proof (@all_upto_spec 512%Z
    (fun d => negb (is_nan (Binary64.int d))
              && Leibniz.eqb (Binary64.min 1 (512 / Binary64.int d)) 1%float
              && (Binary64.round (Binary64.int d * 1) =? d)%Z)
    ltac:(vm_compute; reflexivity) d Hd) as H.
  cbv beta in H. apply andb_prop in H. destruct H as [H H3].
  apply andb_prop in H. destruct H as [H1 H2].
  repeat split.
  - now apply negb_true_iff.
  - now apply FloatAxioms.Leibniz.eqb_spec.
  - now apply Z.eqb_eq.
Qed.

(** X6. A bitmap of at most 512 by 512 is not scaled: the scale is exactly
    1 and each side of the canvas is the side of the bitmap, raised to 64
    when it is smaller.  Binary64 arithmetic. *)
Theorem small_bitmaps_keep_their_size (b : ImageBitmap) :
  (0 <= width b <= 512)%Z -> (0 <= height b <= 512)%Z ->
  scale (num := float) b = 1%float
  /\ canvas_w (num := float) b = Z.max 64 (width b)
  /\ canvas_h (num := float) b = Z.max 64 (height b).
Proof.
  intros HW HH.
  destruct (small_side_binary64 HW) as (HnW & HsW & HrW).
  destruct (small_side_binary64 HH) as (HnH & HsH & HrH).
  assert (Hs : scale (num := float) b = 1%float).
  { unfold scale. cbn [Math_min Math_max of_Z ndiv Binary64.number].
    destruct (max_binary64 _ _ HnW HnH) as ([-> | ->] & _); assumption. }
  unfold canvas_w, canvas_h. rewrite Hs.
  cbn [Math_round of_Z nmul Binary64.number]. rewrite HrW, HrH. auto.
Qed.

Lemma small_bitmaps_keep_their_size_witness :
  canvas_w (num := float) (plain 300 20 9 9 9 255) = Z.max 64 300
  /\ canvas_h (num := float) (plain 300 20 9 9 9 255) = Z.max 64 20.
Proof.
  apply (@small_bitmaps_keep_their_size (plain 300 20 9 9 9 255)); simpl; lia.
Defined.





(** ** What is shown: toFixed and the threshold *)

(** A binary64 number between two positive numbers of one binade is in that
    binade, with a mantissa between theirs. *)
Lemma SFcompare_binade (x : SpecFloat.spec_float) (ma mb : positive) (e0 : Z)
    (c1 c2 : comparison) :
  SpecFloat.SFcompare (SpecFloat.S754_finite false ma e0) x = Some c1 -> c1 <> Gt ->
  SpecFloat.SFcompare x (SpecFloat.S754_finite false mb e0) = Some c2 -> c2 <> Gt ->
  exists m, x = SpecFloat.S754_finite false m e0
            /\ Pos.compare ma m = c1 /\ Pos.compare m mb = c2.
Proof.
  intros H1 N1 H2 N2.
  destruct x as [s | s | | s m e]; simpl in H1, H2; try discriminate.
  - destruct s; congruence.
  - destruct s; congruence.
  - destruct s; [congruence|].
    destruct (Z.compare_spec e0 e) as [E | L | G];
      destruct (Z.compare_spec e e0) as [E' | L' | G']; try lia; try congruence.
    clear E'. subst e. injection H1 as <-. injection H2 as <-.
    exists m. repeat split.
Qed.

Lemma between_binary64 (a b x : float) (ma mb : positive) (e0 : Z) :
  FloatOps.Prim2SF a = SpecFloat.S754_finite false ma e0 ->
  FloatOps.Prim2SF b = SpecFloat.S754_finite false mb e0 ->
  PrimFloat.leb a x = true ->
  exists m, (PrimFloat.leb x b = true ->
               FloatOps.Prim2SF x = SpecFloat.S754_finite false m e0
               /\ (Zpos ma <= Zpos m <= Zpos mb)%Z)
         /\ (PrimFloat.ltb x b = true ->
               FloatOps.Prim2SF x = SpecFloat.S754_finite false m e0
               /\ (Zpos ma <= Zpos m < Zpos mb)%Z).
Proof.
  intros Ea Eb Hax.
  rewrite FloatAxioms.leb_spec, Ea in Hax. unfold SpecFloat.SFleb in Hax.
  destruct (SpecFloat.SFcompare _ (FloatOps.Prim2SF x)) as [c1|] eqn:H1;
    [|discriminate].
  assert (N1 : c1 <> Gt) by (destruct c1; congruence).
  destruct (PrimFloat.leb x b || PrimFloat.ltb x b) eqn:Hb.
  - assert (exists c2, SpecFloat.SFcompare (FloatOps.Prim2SF x)
                         (SpecFloat.S754_finite false mb e0) = Some c2
                       /\ c2 <> Gt
                       /\ (PrimFloat.ltb x b = true -> c2 = Lt))
      as (c2 & H2 & N2 & L2).
    { rewrite FloatAxioms.leb_spec, FloatAxioms.ltb_spec, Eb in Hb.
      rewrite FloatAxioms.ltb_spec, Eb.
      unfold SpecFloat.SFleb, SpecFloat.SFltb in *.
      destruct (SpecFloat.SFcompare (FloatOps.Prim2SF x) _) as [[| |]|];
        try discriminate; eexists; (split; [reflexivity|]);
        split; congruence. }
    destruct (@SFcompare_binade _ _ _ _ _ _ H1 N1 H2 N2) as (m & Ex & C1 & C2).
    exists m.
    assert (Zpos ma <= Zpos m)%Z.
    { destruct (Pos.compare_spec ma m); subst; try lia; congruence. }
    split; intros Hx; (split; [exact Ex|]).
    + destruct (Pos.compare_spec m mb); subst; try lia; congruence.
    + specialize (L2 Hx). subst c2.
      destruct (Pos.compare_spec m mb); subst; try lia; congruence.
  - apply orb_false_elim in Hb. destruct Hb as [Hb1 Hb2].
    exists ma. split; congruence.
Qed.

(** [toFixed(f)] of a positive number below 10^21 whose exponent is
    negative. *)
Lemma toFixed_binary64_finite (x : float) (m : positive) (e : Z) (f : nat) :
  FloatOps.Prim2SF x = SpecFloat.S754_finite false m e ->
  (e < 0)%Z -> (f <= 100)%nat -> (Zpos m < 10 ^ 21 * 2 ^ (- e))%Z ->
  toFixed x f
  = Some (fixed_point ((2 * (Zpos m * 10 ^ Z.of_nat f) + 2 ^ (- e)) / 2 ^ (1 - e)) f).
Proof.
  intros Ex He Hf Hm. cbn [toFixed format_binary64]. unfold toFixed_binary64.
  rewrite Ex.
  destruct (Nat.ltb_spec 100 f); [lia|].
  destruct (Z.leb_spec 0 e); [lia|].
  destruct (Z.leb_spec (10 ^ 21 * 2 ^ (- e)) (Zpos m)); [lia|].
  reflexivity.
Qed.

(** The same for the numbers from 64 to 128, whose exponent is -46. *)
Lemma toFixed_binary64_64_128 (x : float) (m : positive) (f : nat) :
  FloatOps.Prim2SF x = SpecFloat.S754_finite false m (-46) ->
  (f <= 100)%nat -> (Zpos m < 9007199254740992)%Z ->
  toFixed x f
  = Some (fixed_point
            ((2 * (Zpos m * 10 ^ Z.of_nat f) + 70368744177664)
             / 140737488355328) f).
Proof.
  intros Ex Hf Hm.
  assert (E1 : (10 ^ 21 * 2 ^ (- -46) = 70368744177664000000000000000000000)%Z)
    by (vm_compute; reflexivity).
  assert (E2 : (2 ^ (- -46) = 70368744177664)%Z) by (vm_compute; reflexivity).
  assert (E3 : (2 ^ (1 - -46) = 140737488355328)%Z) by (vm_compute; reflexivity).
  rewrite (@toFixed_binary64_finite x m (-46) f Ex); [|lia|assumption|].
  - now rewrite E2, E3.
  - rewrite E1. lia.
Qed.

(** The scores that [toFixed(1)] and [toFixed(2)] write as 90. *)
Lemma toFixed_near_90 (x : float) :
  PrimFloat.ltb x 90 = true ->
  (PrimFloat.leb 89.95 x = true -> toFixed x 1 = Some "90.0")
  /\ (PrimFloat.leb 89.995 x = true -> toFixed x 2 = Some "90.00").
Proof.
  intros Hlt. split; intros Hge.
  - destruct (@between_binary64 89.95%float 90%float x
                6329668538780877 6333186975989760 (-46)
                eq_refl eq_refl Hge) as (m & _ & Hm).
    destruct (Hm Hlt) as (Ex & Hr).
    rewrite (@toFixed_binary64_64_128 x m 1 Ex) by lia.
    change (10 ^ Z.of_nat 1)%Z with 10%Z.
    replace ((2 * (Zpos m * 10) + 70368744177664) / 140737488355328)%Z
      with 900%Z; [reflexivity|].
    apply Z.div_unique
      with (r := (2 * (Zpos m * 10) + 70368744177664 - 900 * 140737488355328)%Z);
      lia.
  - destruct (@between_binary64 89.995%float 90%float x
                6332835132268872 6333186975989760 (-46)
                eq_refl eq_refl Hge) as (m & _ & Hm).
    destruct (Hm Hlt) as (Ex & Hr).
    rewrite (@toFixed_binary64_64_128 x m 2 Ex) by lia.
    change (10 ^ Z.of_nat 2)%Z with 100%Z.
    replace ((2 * (Zpos m * 100) + 70368744177664) / 140737488355328)%Z
      with 9000%Z; [reflexivity|].
    apply Z.div_unique
      with (r := (2 * (Zpos m * 100) + 70368744177664 - 9000 * 140737488355328)%Z);
      lia.
Qed.

Lemma not_geq_binary64 (x y : float) :
  PrimFloat.ltb x y = true -> geq x y = false.
Proof.
  intros Hlt. cbn [geq Binary64.number].
  rewrite FloatAxioms.ltb_spec in Hlt. rewrite FloatAxioms.leb_spec.
  unfold SpecFloat.SFltb, SpecFloat.SFleb in *.
  destruct (SpecFloat.SFcompare (FloatOps.Prim2SF x) (FloatOps.Prim2SF y))
    as [c|] eqn:Hc; [|discriminate].
  rewrite (SFcompare_antisym _ _ Hc). destruct c; simpl; congruence.
Qed.
Lemma toFixed_from_90 (x : float) :
  PrimFloat.leb 90 x = true -> PrimFloat.leb x 100 = true ->
  exists n, (900 <= n <= 1000)%Z /\ toFixed x 1 = Some (fixed_point n 1).
Proof.
  intros Hge Hle.
  destruct (@between_binary64 90%float 100%float x
              6333186975989760 7036874417766400 (-46)
              eq_refl eq_refl Hge) as (m & Hm & _).
  destruct (Hm Hle) as (Ex & Hr).
  rewrite (@toFixed_binary64_64_128 x m 1 Ex) by lia.
  change (10 ^ Z.of_nat 1)%Z with 10%Z.
  eexists. split; [|reflexivity]. split.
  - apply Z.div_le_lower_bound; lia.
  - apply Z.lt_succ_r. apply Z.div_lt_upper_bound; lia.
Qed.

(** X9. A score that is flagged is never shown as less than 90: for a score
    from 90 to 100, [showResult] paints the box in the colours of the
    flag, and the text starts with "AI-generated" and the numeral of a
    number of tenths from 900 to 1000.  Binary64 arithmetic. *)
Theorem flagged_score_shows_90_or_more (browser : Browser float)
    (score : float) (p : Page float) :
  PrimFloat.leb 90 score = true -> PrimFloat.leb score 100 = true ->
  let p' := showResult browser score p in
  resultBox_hidden p' = false
  /\ resultBox_background p' = "#fff1f0"
  /\ resultBox_color p' = "#7f1d1d"
  /\ exists n rest,
       (900 <= n <= 1000)%Z
       /\ resultBox_innerHTML p'
          = String.append "<div>AI-generated — <strong>"
              (String.append (fixed_point n 1) rest).
Proof.
  intros Hge Hle p'.
  assert (Hflag : geq score (of_Z 90) = true) by exact Hge.
  destruct (@toFixed_from_90 _ Hge Hle) as (n & Hn & Hfix).
  subst p'. unfold showResult, show.
  cbn [resultBox_hidden resultBox_background
                 resultBox_color resultBox_innerHTML].
  rewrite Hflag. repeat (split; [reflexivity|]).
  exists n. eexists. split; [exact Hn|].
  unfold result_html, fixed, verdict. rewrite Hflag, Hfix.
  cbn [String.concat]. reflexivity.
Qed.

Lemma flagged_score_shows_90_or_more_witness :
  resultBox_background (showResult (decoding_to (plain 64 64 0 0 0 255))
                          95.5%float blank) = "#fff1f0".
Proof.
  refine (proj1 (proj2 (@flagged_score_shows_90_or_more
                          (decoding_to (plain 64 64 0 0 0 255))
                          95.5%float blank _ _))); reflexivity.
Defined.

(** X10. A score can be shown as 90.0% and not be flagged: for every score
    from 89.95 to less than 90, [showResult] writes
    "Likely real — 90.0%", in the colours of an image that is not
    flagged, above the line that says scores of 90% and more are flagged.
    Binary64 arithmetic. *)
Theorem score_shown_as_90_not_flagged (browser : Browser float)
    (score : float) (p : Page float) :
  PrimFloat.leb 89.95 score = true -> PrimFloat.ltb score 90 = true ->
  let p' := showResult browser score p in
  resultBox_hidden p' = false
  /\ resultBox_background p' = "#f0fff4"
  /\ resultBox_color p' = "#064e3b"
  /\ exists rest,
       resultBox_innerHTML p'
       = String.append "<div>Likely real — <strong>90.0%</strong></div>" rest.
Proof.
  intros Hge Hlt p'.
  pose proof (@not_geq_binary64 _ _ Hlt) as Hflag.
  change (geq score 90%float) with (geq score (of_Z 90)) in Hflag.
  destruct (@toFixed_near_90 _ Hlt) as (Hfix & _). specialize (Hfix Hge).
  subst p'. unfold showResult, show.
  cbn [resultBox_hidden resultBox_background
                 resultBox_color resultBox_innerHTML].
  rewrite Hflag. repeat (split; [reflexivity|]).
  eexists. unfold result_html, fixed, verdict. rewrite Hflag, Hfix.
  cbn [String.concat]. reflexivity.
Qed.

Lemma score_shown_as_90_not_flagged_witness :
  resultBox_color (showResult (decoding_to (plain 64 64 0 0 0 255))
                     89.97%float blank) = "#064e3b".
Proof.
  refine (proj1 (proj2 (proj2 (@score_shown_as_90_not_flagged
                                 (decoding_to (plain 64 64 0 0 0 255))
                                 89.97%float blank _ _)))); reflexivity.
Defined.

(** X11. The report rounds to two decimals and keeps the flag of the
    score itself: for every score from 89.995 to less than 90 the file
    saved is ai_detector_report.txt, of type text/plain, with the line
    "Score: 90.00%" followed by "Flag: Likely real".  Binary64
    arithmetic. *)
Theorem report_of_score_near_90 (browser : Browser float)
    (score : float) (p : Page float) :
  PrimFloat.leb 89.995 score = true -> PrimFloat.ltb score 90 = true ->
  downloads (downloadReport browser score p)
  = {| a_download := "ai_detector_report.txt";
       blob_type := "text/plain";
       blob_text :=
         String.concat newline
           [ "AI Fake Image Detector — Report";
             "Score: 90.00%";
             "Flag: Likely real";
             "Note: This is a lightweight heuristic B1 detector intended for quick checks." ] |}
    :: downloads p.
Proof.
  intros Hge Hlt.
  pose proof (@not_geq_binary64 _ _ Hlt) as Hflag.
  change (geq score 90%float) with (geq score (of_Z 90)) in Hflag.
  destruct (@toFixed_near_90 _ Hlt) as (_ & Hfix). specialize (Hfix Hge).
  unfold downloadReport, save. cbn [downloads]. unfold report, fixed.
  rewrite Hflag, Hfix. reflexivity.
Qed.

Lemma report_of_score_near_90_witness :
  length (downloads (downloadReport (decoding_to (plain 64 64 0 0 0 255))
                       89.997%float blank)) = 1%nat.
Proof.
  rewrite (@report_of_score_near_90 (decoding_to (plain 64 64 0 0 0 255))
             89.997%float blank); reflexivity.
Defined.
(** ** The page: how an analysis ends *)

Lemma computeScoreFromBitmap_fulfilled {num : Type} `{Number num}
    (b : ImageBitmap) (file : File) (realm : Realm num) :
  computeScoreFromBitmap b file realm
  = (Fulfilled (scoreOf (drawn b (canvas_w b) (canvas_h b)) (canvas_w b)
                  (canvas_h b) file (draws realm (taken realm))),
     {| draws := draws realm; taken := S (taken realm) |}).
Proof. reflexivity. Qed.

(** X12. An analysis never ends silently.  When the promise of
    [createImageBitmap] settles, the handler hides the loader and enables
    the button again, and it does exactly one of two things: it shows a
    result and no alert, or it shows one alert, "Error analyzing image: "
    and a message, leaves the box as it was and has taken no random
    number. *)
Theorem analysis_never_ends_silently {num : Type} `{Number num} `{Format num}
    (browser : Browser num) (p : Page num) (realm : Realm num) (k : nat)
    (f : File) :
  nth_error (decoding p) k = Some f ->
  let p' := fst (on_decoded browser k (p, realm)) in
  let realm' := snd (on_decoded browser k (p, realm)) in
  loader_hidden p' = true
  /\ analyzeBtn_disabled p' = false
  /\ decoding p' = without k (decoding p)
  /\ ((exists score,
         resultBox_hidden p' = false
         /\ resultBox_innerHTML p' = result_html browser score
         /\ alerts p' = alerts p)
      \/ (exists message,
            alerts p' = String.append "Error analyzing image: " message :: alerts p
            /\ resultBox_hidden p' = resultBox_hidden p
            /\ resultBox_innerHTML p' = resultBox_innerHTML p
            /\ realm' = realm)).
Proof.
  intros Hk p' realm'. subst p' realm'. unfold on_decoded. rewrite Hk.
  destruct (createImageBitmap browser f) as [b | message].
  - unfold computeScoreFromBitmap_of. cbn [decoded currentFile].
    destruct (currentFile p) as [file|].
    + rewrite computeScoreFromBitmap_fulfilled. cbn.
      repeat (split; [reflexivity|]). left. eexists. repeat split.
    + cbn. repeat (split; [reflexivity|]). right. eexists. repeat split.
  - cbn. repeat (split; [reflexivity|]). right. eexists. repeat split.
Qed.

Lemma analysis_never_ends_silently_witness :
  loader_hidden
    (fst (on_decoded (decoding_to (plain 64 64 0 0 0 255)) 0
            (analyze_begin {| size := 0 |} blank, realm_of 0.5%float 0.5%float)))
  = true.
Proof.
  refine (proj1 (@analysis_never_ends_silently float _ _
                   (decoding_to (plain 64 64 0 0 0 255))
                   (analyze_begin {| size := 0 |} blank)
                   (realm_of 0.5%float 0.5%float) 0 {| size := 0 |} _)).
  reflexivity.
Defined.

(** X13. Reset while the image is being decoded.  The handler reads
    [currentFile] again after [await createImageBitmap(currentFile)]; when
    the user has reset the page in between it is null, and the analysis of
    an image that decoded well ends with the alert of the TypeError of
    [file.size].  No result is shown and no random number taken; the
    Analyze button ends enabled although no file is selected, and a click
    on it does nothing. *)
Theorem reset_while_decoding {num : Type} `{Number num} `{Format num}
    (browser : Browser num) (p : Page num) (realm : Realm num) (f : File)
    (b : ImageBitmap) :
  currentFile p = Some f -> analyzeBtn_disabled p = false ->
  resetBtn_disabled p = false -> decoding p = [] ->
  createImageBitmap browser f = Fulfilled b ->
  let st := run browser [ClickAnalyze; ClickReset; Decoded 0] (p, realm) in
  alerts (fst st)
  = String.append "Error analyzing image: " (null_size browser) :: alerts p
  /\ snd st = realm
  /\ currentFile (fst st) = None
  /\ resultBox_hidden (fst st) = true
  /\ loader_hidden (fst st) = true
  /\ analyzeBtn_disabled (fst st) = false
  /\ step browser ClickAnalyze st = st.
Proof.
  intros Hf Ha Hr Hd Hb st. subst st.
  destruct p. cbn in Hf, Ha, Hr, Hd. subst.
  cbn. rewrite Hb. cbn. repeat split.
Qed.

Lemma reset_while_decoding_witness :
  alerts
    (fst (run (decoding_to (plain 64 64 0 0 0 255))
            [ClickAnalyze; ClickReset; Decoded 0]
            (on_load (decoding_to (plain 64 64 0 0 0 255)) 0
               (on_change (Some {| size := 2048 |}) blank),
             realm_of 0.5%float 0.5%float)))
  = ["Error analyzing image: Cannot read properties of null (reading 'size')"].
Proof.
  refine (proj1 (@reset_while_decoding float _ _
                   (decoding_to (plain 64 64 0 0 0 255))
                   (on_load (decoding_to (plain 64 64 0 0 0 255)) 0
                      (on_change (Some {| size := 2048 |}) blank))
                   (realm_of 0.5%float 0.5%float) {| size := 2048 |}
                   (plain 64 64 0 0 0 255) _ _ _ _ _)); reflexivity.
Defined.

(** X14. Another file chosen while the image is being decoded.  The score
    shown is computed from the pixels of the file that was decoded and the
    size of the file chosen since: [currentFile] is read a second time
    after the [await]. *)
Theorem size_of_the_file_chosen_last {num : Type} `{Number num} `{Format num}
    (browser : Browser num) (p : Page num) (realm : Realm num) (f f' : File)
    (b : ImageBitmap) :
  currentFile p = Some f -> analyzeBtn_disabled p = false ->
  decoding p = [] -> createImageBitmap browser f = Fulfilled b ->
  let st := run browser [ClickAnalyze; Change (Some f'); Decoded 0] (p, realm) in
  let score :=
    scoreOf (drawn b (canvas_w b) (canvas_h b)) (canvas_w b) (canvas_h b) f'
      (draws realm (taken realm)) in
  resultBox_hidden (fst st) = false
  /\ resultBox_innerHTML (fst st) = result_html browser score
  /\ downloadReport_score (fst st) = Some score
  /\ currentFile (fst st) = Some f'.
Proof.
  intros Hf Ha Hd Hb st score. subst st score.
  destruct p. cbn in Hf, Ha, Hd. subst.
  cbn -[scoreOf]. rewrite Hb. cbn -[scoreOf]. repeat split.
Qed.

Lemma size_of_the_file_chosen_last_witness :
  currentFile
    (fst (run (decoding_to (plain 64 64 0 0 0 255))
            [ClickAnalyze; Change (Some {| size := 99 |}); Decoded 0]
            (on_load (decoding_to (plain 64 64 0 0 0 255)) 0
               (on_change (Some {| size := 2048 |}) blank),
             realm_of 0.5%float 0.5%float)))
  = Some {| size := 99 |}.
Proof.
  refine (proj2 (proj2 (proj2
            (@size_of_the_file_chosen_last float _ _
               (decoding_to (plain 64 64 0 0 0 255))
               (on_load (decoding_to (plain 64 64 0 0 0 255)) 0
                  (on_change (Some {| size := 2048 |}) blank))
               (realm_of 0.5%float 0.5%float) {| size := 2048 |}
               {| size := 99 |} (plain 64 64 0 0 0 255) _ _ _ _)))); reflexivity.
Defined.
(** ** The page: what holds whatever happens *)

Lemma run_invariant {num : Type} `{Number num} `{Format num}
    (browser : Browser num) (Inv : Page num * Realm num -> Prop) :
  (forall e st, Inv st -> Inv (step browser e st)) ->
  forall es st, Inv st -> Inv (run browser es st).
Proof.
  intros Hstep es. unfold run.
  induction es as [|e es IH]; intros st Hst; [exact Hst|].
  cbn [fold_left]. apply IH, Hstep, Hst.
Qed.

Lemma on_analyze_cases {num : Type} (p : Page num) :
  on_analyze p = p \/ exists f, on_analyze p = analyze_begin f p.
Proof. unfold on_analyze. destruct (currentFile p); eauto. Qed.

Lemma click_download_cases {num : Type} `{Number num} `{Format num}
    (browser : Browser num) (p : Page num) (realm : Realm num) :
  step browser ClickDownload (p, realm) = (p, realm)
  \/ exists score,
       step browser ClickDownload (p, realm)
       = (downloadReport browser score p, realm).
Proof. cbn [step]. destruct (downloadReport_score p); eauto. Qed.

(** The ways [on_decoded] goes. *)
Lemma on_decoded_cases {num : Type} `{Number num} `{Format num}
    (browser : Browser num) (k : nat) (p : Page num) (realm : Realm num) :
  on_decoded browser k (p, realm) = (p, realm)
  \/ (exists score realm',
        on_decoded browser k (p, realm)
        = (analyze_finally (showResult browser score (decoded k p)), realm')
        /\ currentFile p <> None)
  \/ (exists message realm',
        on_decoded browser k (p, realm)
        = (analyze_finally (analyze_catch message (decoded k p)), realm')).
Proof.
  unfold on_decoded. destruct (nth_error (decoding p) k) as [f|]; [|now left].
  right. destruct (createImageBitmap browser f) as [b | message].
  - unfold computeScoreFromBitmap_of. cbn [decoded currentFile].
    destruct (currentFile p) as [file|].
    + rewrite computeScoreFromBitmap_fulfilled. left.
      eexists. eexists. split; [reflexivity|discriminate].
    + right. eexists. eexists. reflexivity.
  - right. eexists. eexists. reflexivity.
Qed.

(** X15. The loader is shown only while an image is being decoded: on a
    page that starts with the loader hidden, whatever happens, when the
    loader is visible a call of [createImageBitmap] is still to settle,
    and the handler hides the loader when it does. *)
Theorem loader_shown_only_while_decoding {num : Type} `{Number num}
    `{Format num} (browser : Browser num) (es : list Event) (p : Page num)
    (realm : Realm num) :
  loader_hidden p = true ->
  loader_hidden (fst (run browser es (p, realm))) = false ->
  decoding (fst (run browser es (p, realm))) <> [].
Proof.
  intros Hp.
  apply (@run_invariant _ _ _ browser
           (fun st => loader_hidden (fst st) = false -> decoding (fst st) <> [])).
  - clear. intros e [p realm] Inv. cbn [fst] in Inv.
    destruct e as [f | k | | | k |]; cbn [step].
    + destruct f; exact Inv.
    + unfold on_load. destruct (nth_error (reading p) k); exact Inv.
    + destruct (resetBtn_disabled p); exact Inv.
    + destruct (analyzeBtn_disabled p); [exact Inv|].
      destruct (on_analyze_cases p) as [-> | [f ->]]; [exact Inv|].
      cbn. intros _ E. now apply app_eq_nil in E.
    + destruct (on_decoded_cases browser k p realm)
        as [-> | [(s & r & -> & _) | (m & r & ->)]];
        [exact Inv | |]; cbn; discriminate.
    + destruct (downloadReport_score p); exact Inv.
  - cbn [fst]. rewrite Hp. discriminate.
Qed.

Lemma loader_shown_only_while_decoding_witness :
  loader_hidden
    (fst (run (decoding_to (plain 64 64 0 0 0 255))
            [Change (Some {| size := 2048 |}); Load 0; ClickAnalyze]
            (blank, realm_of 0.5%float 0.5%float))) = false
  /\ decoding
       (fst (run (decoding_to (plain 64 64 0 0 0 255))
               [Change (Some {| size := 2048 |}); Load 0; ClickAnalyze]
               (blank, realm_of 0.5%float 0.5%float))) <> [].
Proof.
  split; [reflexivity|].
  apply (@loader_shown_only_while_decoding float _ _
           (decoding_to (plain 64 64 0 0 0 255))
           [Change (Some {| size := 2048 |}); Load 0; ClickAnalyze]
           blank (realm_of 0.5%float 0.5%float)); reflexivity.
Defined.

(** X16. What the box shows belongs together, whatever happens.  On a page
    that starts without a result: whenever the button [#downloadReport]
    exists, the text and the colours of the box are those [showResult]
    gives for the score its listener holds, and a click saves the report
    of that score; and the box is visible only while a file is
    selected. *)
Theorem result_on_screen_is_consistent {num : Type} `{Number num}
    `{Format num} (browser : Browser num) (es : list Event) (p : Page num)
    (realm : Realm num) :
  resultBox_hidden p = true -> downloadReport_score p = None ->
  let st := run browser es (p, realm) in
  (forall score, downloadReport_score (fst st) = Some score ->
     resultBox_innerHTML (fst st) = result_html browser score
     /\ resultBox_background (fst st)
        = (if geq score (of_Z 90) then "#fff1f0" else "#f0fff4")
     /\ resultBox_color (fst st)
        = (if geq score (of_Z 90) then "#7f1d1d" else "#064e3b")
     /\ fst (step browser ClickDownload st)
        = downloadReport browser score (fst st))
  /\ (resultBox_hidden (fst st) = false ->
      currentFile (fst st) <> None /\ downloadReport_score (fst st) <> None).
Proof.
  intros Hh Hs st.
  assert (Inv :
    (forall score, downloadReport_score (fst st) = Some score ->
       resultBox_innerHTML (fst st) = result_html browser score
       /\ resultBox_background (fst st)
          = (if geq score (of_Z 90) then "#fff1f0" else "#f0fff4")
       /\ resultBox_color (fst st)
          = (if geq score (of_Z 90) then "#7f1d1d" else "#064e3b"))
    /\ (resultBox_hidden (fst st) = false ->
        currentFile (fst st) <> None /\ downloadReport_score (fst st) <> None)).
  { subst st.
    apply (@run_invariant _ _ _ browser
      (fun st =>
         (forall score, downloadReport_score (fst st) = Some score ->
            resultBox_innerHTML (fst st) = result_html browser score
            /\ resultBox_background (fst st)
               = (if geq score (of_Z 90) then "#fff1f0" else "#f0fff4")
            /\ resultBox_color (fst st)
               = (if geq score (of_Z 90) then "#7f1d1d" else "#064e3b"))
         /\ (resultBox_hidden (fst st) = false ->
             currentFile (fst st) <> None
             /\ downloadReport_score (fst st) <> None))).
    - clear. intros e [p realm] [I1 I2]. cbn [fst] in I1, I2.
      destruct e as [f | k | | | k |]; [cbn [step] .. | ].
      + destruct f; cbn; (split; [exact I1|]); [|discriminate].
        intros V. split; [discriminate|]. now apply I2.
      + unfold on_load. destruct (nth_error (reading p) k); [|now split].
        cbn. split; [exact I1|discriminate].
      + destruct (resetBtn_disabled p); [now split|].
        cbn. split; [exact I1|discriminate].
      + destruct (analyzeBtn_disabled p); [now split|].
        destruct (on_analyze_cases p) as [-> | [f ->]]; now split.
      + destruct (on_decoded_cases browser k p realm)
          as [-> | [(s & r & -> & Hc) | (m & r & ->)]]; [now split | |].
        * cbn. split.
          -- intros score [= <-]. repeat split.
          -- intros _. split; [exact Hc|discriminate].
        * cbn. now split.
      + destruct (click_download_cases browser p realm) as [-> | [s ->]];
          now split.
    - cbn [fst]. split.
      + intros score E. congruence.
      + intros E. congruence. }
  destruct Inv as [I1 I2]. split; [|exact I2].
  intros score E. destruct (I1 score E) as (A & B & C).
  repeat (split; [assumption|]).
  destruct st as [p' realm']. cbn [fst] in *. cbn [step]. now rewrite E.
Qed.

Lemma result_on_screen_is_consistent_witness :
  resultBox_hidden
    (fst (run (decoding_to (plain 64 64 0 0 0 255))
            [Change (Some {| size := 2048 |}); Load 0; ClickAnalyze; Decoded 0]
            (blank, realm_of 0.5%float 0.5%float))) = false
  /\ currentFile
       (fst (run (decoding_to (plain 64 64 0 0 0 255))
               [Change (Some {| size := 2048 |}); Load 0; ClickAnalyze; Decoded 0]
               (blank, realm_of 0.5%float 0.5%float))) <> None.
Proof.
  split; [reflexivity|].
  refine (proj1 (proj2 (@result_on_screen_is_consistent float _ _
           (decoding_to (plain 64 64 0 0 0 255))
           [Change (Some {| size := 2048 |}); Load 0; ClickAnalyze; Decoded 0]
           blank (realm_of 0.5%float 0.5%float) _ _) _)); reflexivity.
Defined.

(** X17. A [load] event that comes late.  When the user chooses a file and
    then leaves the dialog with none before the file is read, the [load]
    handler of the first reader still shows the preview and enables both
    buttons, with no file selected: a click on Analyze then does
    nothing. *)
Theorem late_load_enables_analyze {num : Type} `{Number num} `{Format num}
    (browser : Browser num) (p : Page num) (realm : Realm num) (f : File) :
  reading p = [] ->
  let st := run browser [Change (Some f); Change None; Load 0] (p, realm) in
  preview_src (fst st) = readAsDataURL browser f
  /\ previewWrap_hidden (fst st) = false
  /\ analyzeBtn_disabled (fst st) = false
  /\ resetBtn_disabled (fst st) = false
  /\ currentFile (fst st) = None
  /\ input_value (fst st) = String.EmptyString
  /\ step browser ClickAnalyze st = st.
Proof.
  intros Hr st. subst st. destruct p. cbn in Hr. subst.
  cbn. repeat split.
Qed.

Lemma late_load_enables_analyze_witness :
  currentFile
    (fst (run (decoding_to (plain 64 64 0 0 0 255))
            [Change (Some {| size := 2048 |}); Change None; Load 0]
            (blank, realm_of 0.5%float 0.5%float))) = None.
Proof.
  refine (proj1 (proj2 (proj2 (proj2 (proj2
           (@late_load_enables_analyze float _ _
              (decoding_to (plain 64 64 0 0 0 255)) blank
              (realm_of 0.5%float 0.5%float) {| size := 2048 |} _))))));
    reflexivity.
Defined.
(** ** The version with a model *)

Lemma tfjs_run_invariant {num : Type} `{Number num} `{Format num}
    (browser : Browser num) (null_predict : String.string)
    (Inv : Tfjs.State num -> Prop) :
  (forall e st, Inv st -> Inv (Tfjs.step browser null_predict e st)) ->
  forall es st, Inv st -> Inv (Tfjs.run browser null_predict es st).
Proof.
  intros Hstep es. unfold Tfjs.run.
  induction es as [|e es IH]; intros st Hst; [exact Hst|].
  cbn [fold_left]. apply IH, Hstep, Hst.
Qed.

(** X18. Without a model nothing is analysed.  When the model fails to
    load the script shows one alert, "Failed to load AI detection model.";
    from then on, whatever the user does, a click on Analyze returns at
    the guard: no other alert, no loader, no result and no report, and
    the box keeps its text.  The same holds for as long as the model is
    still loading. *)
Theorem without_model_nothing_is_analysed {num : Type} `{Number num}
    `{Format num} (browser : Browser num) (null_predict : String.string)
    (es : list Tfjs.Event) (st : Tfjs.State num) (reason : String.string) :
  Tfjs.model st = None -> decoding (Tfjs.page st) = [] ->
  Tfjs.predicting st = [] -> downloadReport_score (Tfjs.page st) = None ->
  let st' := Tfjs.run browser null_predict es
               (Tfjs.loadModel (Rejected reason) st) in
  alerts (Tfjs.page st')
  = "Failed to load AI detection model." :: alerts (Tfjs.page st)
  /\ alerts (Tfjs.page (Tfjs.run browser null_predict es st))
     = alerts (Tfjs.page st)
  /\ Tfjs.model st' = None
  /\ loader_hidden (Tfjs.page st') = loader_hidden (Tfjs.page st)
  /\ resultBox_innerHTML (Tfjs.page st') = resultBox_innerHTML (Tfjs.page st)
  /\ downloads (Tfjs.page st') = downloads (Tfjs.page st)
  /\ (resultBox_hidden (Tfjs.page st) = true ->
      resultBox_hidden (Tfjs.page st') = true).
Proof.
  intros Hm Hd Hp Hs st'.
  assert (Inv : forall st0 : Tfjs.State num,
    Tfjs.model st0 = None -> decoding (Tfjs.page st0) = [] ->
    Tfjs.predicting st0 = [] -> downloadReport_score (Tfjs.page st0) = None ->
    let st1 := Tfjs.run browser null_predict es st0 in
    Tfjs.model st1 = None
    /\ alerts (Tfjs.page st1) = alerts (Tfjs.page st0)
    /\ loader_hidden (Tfjs.page st1) = loader_hidden (Tfjs.page st0)
    /\ resultBox_innerHTML (Tfjs.page st1) = resultBox_innerHTML (Tfjs.page st0)
    /\ downloads (Tfjs.page st1) = downloads (Tfjs.page st0)
    /\ (resultBox_hidden (Tfjs.page st0) = true ->
        resultBox_hidden (Tfjs.page st1) = true)).
  { clear. intros st0 Hm Hd Hp Hs st1.
    assert (I : (Tfjs.model st1 = None /\ decoding (Tfjs.page st1) = []
                 /\ Tfjs.predicting st1 = []
                 /\ downloadReport_score (Tfjs.page st1) = None)
                /\ alerts (Tfjs.page st1) = alerts (Tfjs.page st0)
                /\ loader_hidden (Tfjs.page st1) = loader_hidden (Tfjs.page st0)
                /\ resultBox_innerHTML (Tfjs.page st1)
                   = resultBox_innerHTML (Tfjs.page st0)
                /\ downloads (Tfjs.page st1) = downloads (Tfjs.page st0)
                /\ (resultBox_hidden (Tfjs.page st0) = true ->
                    resultBox_hidden (Tfjs.page st1) = true)).
    { subst st1.
      apply (@tfjs_run_invariant _ _ _ browser null_predict
        (fun st1 =>
           (Tfjs.model st1 = None /\ decoding (Tfjs.page st1) = []
            /\ Tfjs.predicting st1 = []
            /\ downloadReport_score (Tfjs.page st1) = None)
           /\ alerts (Tfjs.page st1) = alerts (Tfjs.page st0)
           /\ loader_hidden (Tfjs.page st1) = loader_hidden (Tfjs.page st0)
           /\ resultBox_innerHTML (Tfjs.page st1)
              = resultBox_innerHTML (Tfjs.page st0)
           /\ downloads (Tfjs.page st1) = downloads (Tfjs.page st0)
           /\ (resultBox_hidden (Tfjs.page st0) = true ->
               resultBox_hidden (Tfjs.page st1) = true))).
      - clear. intros e [p m pr] ((Im & Id & Ip & Is) & Ia & Il & Ih & Iw & Iv).
        cbn [Tfjs.page Tfjs.model Tfjs.predicting] in *. subst m pr.
        destruct e as [f | k | | | k | k |];
          unfold Tfjs.step, Tfjs.on_analyze, Tfjs.on_decoded,
            Tfjs.on_predicted, Tfjs.on_page;
          cbn [Tfjs.page Tfjs.model Tfjs.predicting].
        + destruct f; cbn; auto 10.
        + unfold on_load. destruct (nth_error (reading p) k); cbn; auto 10.
        + destruct (resetBtn_disabled p); cbn; auto 10.
        + destruct (analyzeBtn_disabled p); [cbn; auto 10|].
          destruct (currentFile p); cbn; auto 10.
        + rewrite Id. destruct k; cbn; auto 10.
        + destruct k; cbn; auto 10.
        + rewrite Is. cbn. auto 10.
      - auto 10. }
    tauto. }
  split; [|split].
  - subst st'.
    destruct (Inv (Tfjs.loadModel (Rejected reason) st)) as (_ & -> & _);
      try assumption; reflexivity.
  - now destruct (Inv st Hm Hd Hp Hs) as (_ & -> & _).
  - subst st'.
    destruct (Inv (Tfjs.loadModel (Rejected reason) st)) as (A & _ & B & C & D & E);
      try assumption. auto.
Qed.

Lemma without_model_nothing_is_analysed_witness :
  alerts (Tfjs.page
            (Tfjs.run (decoding_to (plain 64 64 0 0 0 255))
               "Cannot read properties of null (reading 'predict')"
               [Tfjs.Change (Some {| size := 2048 |}); Tfjs.Load 0;
                Tfjs.ClickAnalyze; Tfjs.Decoded 0; Tfjs.ClickDownload]
               (Tfjs.loadModel (Rejected "404")
                  {| Tfjs.page := @blank float; Tfjs.model := None;
                     Tfjs.predicting := [] |})))
  = ["Failed to load AI detection model."].
Proof.
  refine (proj1 (@without_model_nothing_is_analysed float _ _
           (decoding_to (plain 64 64 0 0 0 255))
           "Cannot read properties of null (reading 'predict')"
           [Tfjs.Change (Some {| size := 2048 |}); Tfjs.Load 0;
            Tfjs.ClickAnalyze; Tfjs.Decoded 0; Tfjs.ClickDownload]
           {| Tfjs.page := @blank float; Tfjs.model := None;
              Tfjs.predicting := [] |} "404" _ _ _ _)); reflexivity.
Defined.

Lemma nan_binary64 (x : float) :
  is_nan x = true -> FloatOps.Prim2SF x = SpecFloat.S754_nan.
Proof.
  unfold is_nan. rewrite FloatAxioms.eqb_spec. unfold SpecFloat.SFeqb.
  destruct (FloatOps.Prim2SF x) as [s | s | | s m e]; cbn; try reflexivity.
  - discriminate.
  - destruct s; discriminate.
  - rewrite Z.compare_refl.
    change PosDef.Pos.compare_cont with Pos.compare_cont.
    change (Pos.compare_cont Eq m m) with (Pos.compare m m).
    rewrite Pos.compare_refl. destruct s; discriminate.
Qed.

(** X19. A prediction that is NaN reads "Likely real".  When the model
    gives NaN the score is NaN, [score >= 90] is false, and [showResult]
    writes "Likely real — NaN%" in the colours of an image that is not
    flagged; no alert is shown.  Binary64 arithmetic. *)
Theorem nan_prediction_reads_likely_real (browser : Browser float)
    (st : Tfjs.State float) (k : nat) (prediction : float) :
  nth_error (Tfjs.predicting st) k = Some (Fulfilled prediction) ->
  is_nan prediction = true ->
  let p' := Tfjs.page (Tfjs.on_predicted browser k st) in
  resultBox_hidden p' = false
  /\ resultBox_background p' = "#f0fff4"
  /\ resultBox_color p' = "#064e3b"
  /\ alerts p' = alerts (Tfjs.page st)
  /\ exists rest,
       resultBox_innerHTML p'
       = String.append newline
           (String.append "    <div>Likely real — <strong>NaN%</strong></div>"
              rest).
Proof.
  intros Hk Hn p'. subst p'. unfold Tfjs.on_predicted. rewrite Hk.
  cbn [Tfjs.runTFJSModel nmul of_Z Binary64.number].
  set (score := (prediction * Binary64.int 100)%float).
  assert (Hs : FloatOps.Prim2SF score = SpecFloat.S754_nan).
  { subst score. rewrite FloatAxioms.mul_spec, (nan_binary64 _ Hn). reflexivity. }
  assert (Hflag : geq score (of_Z 90) = false).
  { cbn [geq Binary64.number]. rewrite FloatAxioms.leb_spec, Hs. reflexivity. }
  assert (Hfix : toFixed score 1 = Some "NaN").
  { cbn [toFixed format_binary64]. unfold toFixed_binary64. now rewrite Hs. }
  clearbody score.
  cbn [Tfjs.on_page Tfjs.page]. unfold Tfjs.showResult, show.
  cbn [analyze_finally resultBox_hidden resultBox_background resultBox_color
       resultBox_innerHTML alerts].
  rewrite Hflag. repeat (split; [reflexivity|]).
  eexists. unfold Tfjs.result_html, fixed, verdict. rewrite Hflag, Hfix.
  cbn [String.concat]. reflexivity.
Qed.

Lemma nan_prediction_reads_likely_real_witness :
  resultBox_background
    (Tfjs.page
       (Tfjs.on_predicted (decoding_to (plain 64 64 0 0 0 255)) 0
          {| Tfjs.page := blank; Tfjs.model := None;
             Tfjs.predicting := [Fulfilled nan] |}))
  = "#f0fff4".
Proof.
  refine (proj1 (proj2 (@nan_prediction_reads_likely_real
           (decoding_to (plain 64 64 0 0 0 255))
           {| Tfjs.page := blank; Tfjs.model := None;
              Tfjs.predicting := [Fulfilled nan] |} 0 nan _ _)));
    reflexivity.
Defined.

(** ** Images of one colour *)

Section FlatCanvas.

Variables (r g b a : Z) (w h : Z).
Hypothesis Hw : (64 <= w <= 512)%Z.
Hypothesis Hh : (64 <= h <= 512)%Z.

Let data := uniform r g b a w h.






End FlatCanvas.


